(** * pyseer_to_phandango_plot: a shallow embedding and its properties

    The program under study is the single script
    [pyseer_to_phandango_plot.py].  It reads a tab-delimited Pyseer table,
    resolves a variant column and a p-value column from the header, and
    writes a Phandango [.plot] track with one row per accepted variant.

    Modelling conventions.
    - A Python [str] is a [string]; a character is an [ascii] read as a
      code point below 256 (the Latin-1 range of Unicode).  Texts with
      code points above 255 are outside the model.
    - A Python [int] is a [Z]; a Python [float] is a binary64 value of
      [spec_float] (precision 53, exponent bound 1024).  Reading a
      decimal literal rounds to nearest, ties to even.  The C library's
      [log10] and the shortest-digits text of a finite float are
      parameters of the development: every theorem holds for all of
      them.
    - A Python [dict] is a [gmap]; the file system is a [gmap] from a
      path to the text that reading the file in text mode yields (after
      decoding and newline translation).  A file is the text of its
      path: two spellings of one file are two paths of the model, and
      nothing is stated about a run whose output path is another name
      of a file it reads.  A write stores the text as it is written,
      which is the text a later read yields when it holds no carriage
      return.  Errors of the operating system other than a missing
      input file are outside the model: no theorem lists the exceptions
      a run can end with.
    - An exception is a value of [exn]; one that leaves [main] ends the
      process with status 1 before anything is written.
    - The command line is taken as parsed: a run starts from the
      namespace [args] that [parse_args] returns. *)

From Stdlib Require Import ZArith NArith Ascii String List Bool Lia.
From Stdlib Require Import DecimalString DecimalFacts DecimalPos DecimalN DecimalZ.
From Stdlib Require Import Floats.SpecFloat.
From stdpp Require Import base option list gmap strings.

Local Open Scope string_scope.

(** ** Characters and strings of the Python runtime *)

Module Py.

Definition ord (c : ascii) : N := N_of_ascii c.

(** [str.isspace] on code points below 256. *)
Definition isspace (c : ascii) : bool :=
  let n := ord c in
  (((9 <=? n) && (n <=? 13)) || ((28 <=? n) && (n <=? 32))
   || (n =? 133) || (n =? 160))%N.

(** The characters [int()] and [float()] drop around a literal: the C
    locale's white space plus the two Latin-1 spaces that the number
    parsers first map to a blank. *)
Definition isspace_num (c : ascii) : bool :=
  let n := ord c in
  (((9 <=? n) && (n <=? 13)) || (n =? 32) || (n =? 133) || (n =? 160))%N.

Definition isdigit (c : ascii) : bool :=
  let n := ord c in ((48 <=? n) && (n <=? 57))%N.

Definition is_newline (c : ascii) : bool := (ord c =? 10)%N.

(** [str.lower] on one character: A-Z and the Latin-1 capitals. *)
Definition lower_char (c : ascii) : ascii :=
  let n := ord c in
  if (((65 <=? n) && (n <=? 90))
      || ((192 <=? n) && (n <=? 222) && negb (n =? 215)))%N
  then ascii_of_N (n + 32) else c.

Fixpoint lower (s : string) : string :=
  match s with
  | EmptyString => EmptyString
  | String c s' => String (lower_char c) (lower s')
  end.

Fixpoint lstrip_by (p : ascii -> bool) (s : string) : string :=
  match s with
  | EmptyString => EmptyString
  | String c s' => if p c then lstrip_by p s' else s
  end.

Fixpoint rstrip_by (p : ascii -> bool) (s : string) : string :=
  match s with
  | EmptyString => EmptyString
  | String c s' =>
      match rstrip_by p s' with
      | EmptyString => if p c then EmptyString else String c EmptyString
      | r => String c r
      end
  end.

Definition strip_by (p : ascii -> bool) (s : string) : string :=
  rstrip_by p (lstrip_by p s).

(** [s.strip()] and [s.rstrip("\n")]. *)
Definition strip (s : string) : string := strip_by isspace s.
Definition rstrip_newline (s : string) : string := rstrip_by is_newline s.

(** Truthiness of a string: non-empty. *)
Definition truthy (s : string) : bool :=
  match s with EmptyString => false | String _ _ => true end.

(** Iterating a text-mode file: each line keeps its terminating newline;
    a last line without one is yielded when it is not empty. *)
Fixpoint file_lines (text : string) : list string :=
  match text with
  | EmptyString => []
  | String c rest =>
      if is_newline c then String c EmptyString :: file_lines rest
      else match file_lines rest with
           | [] => [String c EmptyString]
           | l :: ls => String c l :: ls
           end
  end.

(** [s.split(sep)] for a non-empty separator: leftmost matches, which do
    not overlap.  [skip] counts the characters of a matched separator
    still to be dropped; [cur] is the field being read, reversed. *)
Fixpoint split_from (sep : string) (skip : nat) (cur : list ascii)
    (s : string) : list string :=
  match s with
  | EmptyString => [string_of_list_ascii (rev cur)]
  | String c s' =>
      match skip with
      | S k => split_from sep k cur s'
      | O =>
          if String.prefix sep s
          then string_of_list_ascii (rev cur)
               :: split_from sep (String.length sep - 1) [] s'
          else split_from sep 0 (c :: cur) s'
      end
  end.

(** [None] stands for the [ValueError] raised on an empty separator. *)
Definition split (s sep : string) : option (list string) :=
  match sep with
  | EmptyString => None
  | String _ _ => Some (split_from sep 0 [] s)
  end.

(** Splitting on the tab character, whose separator is never empty. *)
Definition tab : string := String (ascii_of_N 9) EmptyString.
Definition newline : string := String (ascii_of_N 10) EmptyString.

Definition split_tab (s : string) : list string := split_from tab 0 [] s.

(** [sep.join(l)]. *)
Definition join (sep : string) (l : list string) : string :=
  String.concat sep l.

(** [sub in s]. *)
Fixpoint contains (sub s : string) : bool :=
  String.prefix sub s ||
  match s with
  | EmptyString => false
  | String _ s' => contains sub s'
  end.

(** [l[i]] with Python's negative indices; [None] is [IndexError]. *)
Definition index {A} (l : list A) (i : Z) : option A :=
  if (0 <=? i)%Z then l !! Z.to_nat i
  else if (0 <=? Z.of_nat (length l) + i)%Z
       then l !! Z.to_nat (Z.of_nat (length l) + i)
       else None.

(** Every character of [s] satisfies [p]. *)
Fixpoint all_chars (p : ascii -> bool) (s : string) : bool :=
  match s with
  | EmptyString => true
  | String c s' => p c && all_chars p s'
  end.

(** *** Integers *)

(** The digits of a literal in which single underscores may separate
    digits; [prev] tells whether the previous character was a digit. *)
Fixpoint digits_us (prev : bool) (s : string) : option string :=
  match s with
  | EmptyString => if prev then Some EmptyString else None
  | String c s' =>
      if isdigit c then String c <$> digits_us true s'
      else if (ord c =? 95)%N
           then (if prev then digits_us false s' else None)
           else None
  end.

Definition split_sign (s : string) : bool * string :=
  match s with
  | String c r =>
      if (ord c =? 45)%N then (true, r)
      else if (ord c =? 43)%N then (false, r)
      else (false, s)
  | EmptyString => (false, s)
  end.

(** [int(s)]: [None] is [ValueError].  The bound that recent
    interpreters put on the number of digits of a literal (4300 unless
    configured otherwise) is not modelled: a literal may be of any
    length. *)
Definition int (s : string) : option Z :=
  let '(neg, body) := split_sign (strip_by isspace_num s) in
  ds ← digits_us false body;
  u ← NilEmpty.uint_of_string ds;
  Some (if neg then (- Z.of_uint u)%Z else Z.of_uint u).

(** [str(z)] for an integer. *)
Definition str_int (z : Z) : string := NilZero.string_of_int (Z.to_int z).

(** *** Floats *)

Definition prec : Z := 53.
Definition emax : Z := 1024.

Definition float_zero : spec_float := S754_zero false.
Definition float_inf : spec_float := S754_infinity false.

(** [x <= y] and [-x] on binary64 values. *)
Definition float_le (x y : spec_float) : bool := SFleb x y.
Definition float_neg (x : spec_float) : spec_float := SFopp x.

(** The binary64 value nearest to [(-1)^neg * m * 10^e], ties to even.
    For a negative [e] the quotient is taken with more than 1100 extra
    bits, so that the bits dropped by the rounding include the position
    of every tie, and a non-zero remainder is passed on as a sticky
    bit. *)
Definition float_of_decimal (neg : bool) (m : N) (e : Z) : spec_float :=
  match m with
  | N0 => S754_zero neg
  | Npos p =>
      if (0 <=? e)%Z
      then binary_round prec emax neg (Z.to_pos (Zpos p * 10 ^ e)) 0
      else
        let k := (1100 + 4 * (- e))%Z in
        let num := (Zpos p * 2 ^ k)%Z in
        let den := (10 ^ (- e))%Z in
        binary_round_aux prec emax neg (num / den) (- k)
          (if (num mod den =? 0)%Z then loc_Exact else loc_Inexact Lt)
  end.

(** The text with its underscores removed, when each of them stands
    between two digits. *)
Fixpoint strip_underscores (prev_digit prev_us : bool) (s : string)
    : option string :=
  match s with
  | EmptyString => if prev_us then None else Some EmptyString
  | String c s' =>
      if (ord c =? 95)%N
      then (if prev_digit then strip_underscores false true s' else None)
      else if prev_us && negb (isdigit c) then None
           else String c <$> strip_underscores (isdigit c) false s'
  end.

Fixpoint span_digits (s : string) : string * string :=
  match s with
  | EmptyString => (EmptyString, EmptyString)
  | String c s' =>
      if isdigit c
      then let '(d, r) := span_digits s' in (String c d, r)
      else (EmptyString, s)
  end.

Definition nat_of_digits (ds : string) : option N :=
  N.of_uint <$> NilEmpty.uint_of_string ds.

(** The exponent part of a literal: nothing, or [e] or [E], a sign and
    at least one digit, up to the end of the text. *)
Definition parse_exponent (s : string) : option Z :=
  match s with
  | EmptyString => Some 0%Z
  | String c r =>
      if (ord c =? 101)%N || (ord c =? 69)%N
      then
        let '(neg, body) := split_sign r in
        match span_digits body with
        | (String d ds, EmptyString) =>
            n ← nat_of_digits (String d ds);
            Some (if neg then (- Z.of_N n)%Z else Z.of_N n)
        | _ => None
        end
      else None
  end.

(** A decimal literal: digits, an optional point and more digits, with
    a digit on one side at least, then the exponent. *)
Definition parse_decimal (neg : bool) (s : string) : option spec_float :=
  let '(ip, r1) := span_digits s in
  let '(fp, r2) :=
    match r1 with
    | String c r =>
        if (ord c =? 46)%N then span_digits r else (EmptyString, r1)
    | EmptyString => (EmptyString, r1)
    end in
  match ip ++ fp with
  | EmptyString => None
  | ds =>
      m ← nat_of_digits ds;
      e ← parse_exponent r2;
      Some (float_of_decimal neg m (e - Z.of_nat (String.length fp)))
  end.

(** [float(s)]: [None] is [ValueError]. *)
Definition float (s : string) : option spec_float :=
  t ← strip_underscores false false s;
  let '(neg, body) := split_sign (strip_by isspace_num t) in
  let low := lower body in
  if String.eqb low "inf" || String.eqb low "infinity"
  then Some (S754_infinity neg)
  else if String.eqb low "nan" then Some S754_nan
       else parse_decimal neg body.

(** [math.log10(x)], over the C library's [log10] on positive finite
    arguments: [None] is the [ValueError] of a domain error. *)
Definition math_log10 (libm_log10 : spec_float -> spec_float)
    (x : spec_float) : option spec_float :=
  match x with
  | S754_nan => Some S754_nan
  | S754_infinity false => Some (S754_infinity false)
  | S754_infinity true => None
  | S754_zero _ => None
  | S754_finite true _ _ => None
  | S754_finite false _ _ => Some (libm_log10 x)
  end.

(** [str(x)] for a float, over [repr_finite], the shortest decimal text
    that reads back as a given zero or finite value. *)
Definition str_float (repr_finite : spec_float -> string)
    (x : spec_float) : string :=
  match x with
  | S754_infinity false => "inf"
  | S754_infinity true => "-inf"
  | S754_nan => "nan"
  | _ => repr_finite x
  end.

End Py.

(** ** The data of a run *)

(** The namespace built by [parse_args]. *)
Record args := {
  pyseer : string;
  out : string;
  chr_index : string;
  variant_col : string;
  pcol : option string;
  variant_delim : string;
  bp_field_index : Z;
  snp_name : string;
  r2 : string;
  skip_nonpositive_p : bool;
  allow_missing_bp : bool
}.

(** The defaults of the command line, for the two required paths. *)
Definition default_args (pyseer_path out_path : string) : args :=
  {| pyseer := pyseer_path; out := out_path; chr_index := "26";
     variant_col := "variant"; pcol := None; variant_delim := "_";
     bp_field_index := 1; snp_name := "."; r2 := "0";
     skip_nonpositive_p := false; allow_missing_bp := false |}.

(** The messages of the [SystemExit]s of [main], by what they report;
    their wording is not modelled. *)
Inductive error :=
  | EmptyInput (path : string)
  | VariantColumnNotFound (col : string) (header : list string)
  | NoPValueColumn (header : list string)
  | MissingBPField (variant : string) (idx : Z) (delim : string)
  | BPNotInteger (bp variant : string)
  | PNotNumeric (p_str col variant : string).

Inductive exn :=
  | SystemExit (e : error)
  | FileNotFoundError (path : string)
  | ValueError (what : string).

Inductive result (A : Type) :=
  | Ok (x : A)
  | Raise (e : exn).
Arguments Ok {A} x.
Arguments Raise {A} e.

(** What the process writes to its error stream. *)
Inductive diag :=
  | Fatal (e : exn)
  | INFO (written : nat) (out_path col variant_column : string)
  | WARN_bp (n : nat)
  | WARN_p (n : nat).

(** The state of the row loop: [out_rows], [bad_bp] and [bad_p]. *)
Record loop_state := {
  out_rows : list string;
  bad_bp : nat;
  bad_p : nat
}.

(** Which [continue] ended an iteration. *)
Inductive skip_reason := ShortRow | BadPosition | BadPValue.

(** How one iteration of the row loop ends: at a [continue], at the
    [out_rows.append] that closes the body, or at a [raise]. *)
Inductive step :=
  | Continue (why : skip_reason) (st : loop_state)
  | Append (st : loop_state)
  | Raises (e : exn).

(** A finished process: exit status, files, error stream. *)
Record process := {
  status : Z;
  files : gmap string string;
  stderr : list diag
}.

Definition DEFAULT_HEADER : string :=
  "#CHR" ++ Py.tab ++ "SNP" ++ Py.tab ++ "BP" ++ Py.tab ++ "minLOG10(P)"
  ++ Py.tab ++ "log10(p)" ++ Py.tab ++ "r^2".

(** ** The functions of the script *)

Definition candidates : list string :=
  ["lrt-pvalue"; "pvalue"; "p-value"; "pval"; "wald-pvalue";
   "score-pvalue"; "filter-pvalue"].

(** [{h.lower(): h for h in header}]: later names overwrite earlier. *)
Definition lower_dict (header : list string) : gmap string string :=
  foldl (fun d h => <[Py.lower h := h]> d) ∅ header.

(** [for c in candidates: if c in lower: return lower[c]]. *)
Fixpoint detect_pcol_candidates (lower : gmap string string)
    (cs : list string) : option string :=
  match cs with
  | [] => None
  | c :: cs' =>
      match lower !! c with
      | Some h => Some h
      | None => detect_pcol_candidates lower cs'
      end
  end.

(** ["pvalue" in h.lower() or h.lower() in ("p", "pval")]. *)
Definition looks_like_pvalue (h : string) : bool :=
  Py.contains "pvalue" (Py.lower h)
  || String.eqb (Py.lower h) "p" || String.eqb (Py.lower h) "pval".

(** [for h in header: if ...: return h]. *)
Fixpoint detect_pcol_heuristic (header : list string) : option string :=
  match header with
  | [] => None
  | h :: hs => if looks_like_pvalue h then Some h else detect_pcol_heuristic hs
  end.

Definition detect_pcol (header : list string) : option string :=
  match detect_pcol_candidates (lower_dict header) candidates with
  | Some h => Some h
  | None => detect_pcol_heuristic header
  end.

Definition enumerate {A} (l : list A) : list (nat * A) :=
  zip (seq 0 (length l)) l.

(** [{name: i for i, name in enumerate(header)}]. *)
Definition col_index (header : list string) : gmap string nat :=
  foldl (fun d '(i, name) => <[name := i]> d) ∅ (enumerate header).

(** [[ln.rstrip("\n") for ln in f if ln.strip()]]. *)
Definition read_lines (text : string) : list string :=
  Py.rstrip_newline <$>
    List.filter (fun ln => Py.truthy (Py.strip ln)) (Py.file_lines text).

Definition bump_bad_bp (st : loop_state) : loop_state :=
  {| out_rows := out_rows st; bad_bp := S (bad_bp st); bad_p := bad_p st |}.

Definition bump_bad_p (st : loop_state) : loop_state :=
  {| out_rows := out_rows st; bad_bp := bad_bp st; bad_p := S (bad_p st) |}.

Definition append_row (row : string) (st : loop_state) : loop_state :=
  {| out_rows := out_rows st ++ [row]; bad_bp := bad_bp st;
     bad_p := bad_p st |}.

Definition initial_state : loop_state :=
  {| out_rows := [DEFAULT_HEADER]; bad_bp := 0; bad_p := 0 |}.

(** The two [if bad_bp:] and [if bad_p:] lines that close [main]. *)
Definition warnings (st : loop_state) : list diag :=
  (if (bad_bp st =? 0)%nat then [] else [WARN_bp (bad_bp st)])
  ++ (if (bad_p st =? 0)%nat then [] else [WARN_p (bad_p st)]).

(** The text written to the output file:
    ["\n".join(out_rows) + "\n"]. *)
Definition render (rows : list string) : string :=
  Py.join Py.newline rows ++ Py.newline.

(** Lines 173 to 175: the variant split by the delimiter and the field
    at the configured index; [None] when the delimiter is empty or the
    index is out of range. *)
Definition position_field (a : args) (variant : string) : option string :=
  fields ← Py.split variant (variant_delim a);
  Py.index fields (bp_field_index a).

(** Lines 173 to 194: the position field read as an integer. *)
Definition parse_position (a : args) (variant : string) : option Z :=
  position_field a variant ≫= Py.int.

(** A position field that carries a minus sign. *)
Definition has_minus_sign (bp : string) : bool :=
  fst (Py.split_sign (Py.strip_by Py.isspace_num bp)).

(** An instance of the two runtime functions on the values the worked
    examples meet: [log10(0.01)] is [-2.0], and the text of [2.0]. *)
Definition sample_log10 (x : spec_float) : spec_float :=
  if SFeqb x (S754_finite false 5764607523034235 (-59))
  then S754_finite true 4503599627370496 (-51)
  else S754_nan.

Definition sample_repr (x : spec_float) : string :=
  if SFeqb x (S754_finite false 4503599627370496 (-51)) then "2.0"
  else "0.0".

Section Script.

(** The C library and the interpreter: [log10] on positive finite
    floats, and the text of zero and finite floats. *)
Variable libm_log10 : spec_float -> spec_float.
Variable repr_finite : spec_float -> string.

Definition safe_neglog10 (p : spec_float) : result spec_float :=
  if Py.float_le p Py.float_zero then Ok Py.float_inf
  else match Py.math_log10 libm_log10 p with
       | Some y => Ok (Py.float_neg y)
       | None => Raise (ValueError "math domain error")
       end.

Section Rows.

Variable a : args.
Variables var_i p_i : nat.
Variable pcol_name : string.

(** The six fields of an output row, joined by tabs. *)
Definition output_row (bp_int : Z) (neglog : spec_float) : string :=
  Py.join Py.tab
    [chr_index a; snp_name a; Py.str_int bp_int;
     Py.str_float repr_finite neglog; Py.str_float repr_finite neglog;
     r2 a].

(** The body of [for ln in lines[1:]]. *)
Definition loop_body (ln : string) (st : loop_state) : step :=
  let parts := Py.split_tab ln in
  if (length parts <=? max var_i p_i)%nat then Continue ShortRow st
  else
    let variant := nth var_i parts "" in
    let p_str := nth p_i parts "" in
    match Py.split variant (variant_delim a) with
    | None => Raises (ValueError "empty separator")
    | Some fields =>
    match Py.index fields (bp_field_index a) with
    | None =>
        let st := bump_bad_bp st in
        if allow_missing_bp a then Continue BadPosition st
        else Raises (SystemExit
               (MissingBPField variant (bp_field_index a) (variant_delim a)))
    | Some bp =>
    match Py.int bp with
    | None =>
        let st := bump_bad_bp st in
        if allow_missing_bp a then Continue BadPosition st
        else Raises (SystemExit (BPNotInteger bp variant))
    | Some bp_int =>
    match Py.float p_str with
    | None =>
        let st := bump_bad_p st in
        if skip_nonpositive_p a then Continue BadPValue st
        else Raises (SystemExit (PNotNumeric p_str pcol_name variant))
    | Some p_val =>
        if Py.float_le p_val Py.float_zero
        then
          let st := bump_bad_p st in
          if skip_nonpositive_p a then Continue BadPValue st
          else Append (append_row (output_row bp_int Py.float_inf) st)
        else
          match safe_neglog10 p_val with
          | Raise e => Raises e
          | Ok neglog => Append (append_row (output_row bp_int neglog) st)
          end
    end end end end.

Fixpoint for_loop (lines : list string) (st : loop_state)
    : result loop_state :=
  match lines with
  | [] => Ok st
  | ln :: rest =>
      match loop_body ln st with
      | Continue _ st' => for_loop rest st'
      | Append st' => for_loop rest st'
      | Raises e => Raise e
      end
  end.

End Rows.

(** [main], from the parsed arguments and the files on disk to the
    files and the error stream it leaves, or to the exception that
    ends it. *)
Definition main (a : args) (fs : gmap string string)
    : result (gmap string string * list diag) :=
  match fs !! pyseer a with
  | None => Raise (FileNotFoundError (pyseer a))
  | Some text =>
  match read_lines text with
  | [] => Raise (SystemExit (EmptyInput (pyseer a)))
  | first :: data =>
      let header := Py.split_tab first in
      let index := col_index header in
      match index !! variant_col a with
      | None =>
          Raise (SystemExit (VariantColumnNotFound (variant_col a) header))
      | Some var_i =>
          let resolved :=
            match pcol a with
            | None => detect_pcol header
            | Some name => Some name
            end in
          match resolved with
          | None => Raise (SystemExit (NoPValueColumn header))
          | Some pcol_name =>
          match index !! pcol_name with
          | None => Raise (SystemExit (NoPValueColumn header))
          | Some p_i =>
              match for_loop a var_i p_i pcol_name data initial_state with
              | Raise e => Raise e
              | Ok st =>
                  Ok (<[out a := render (out_rows st)]> fs,
                      INFO (length (out_rows st) - 1) (out a) pcol_name
                        (variant_col a)
                      :: warnings st)
              end
          end end
      end
  end end.

(** The script as a process: an exception that leaves [main] ends it
    with status 1 and the files as they were. *)
Definition run_script (a : args) (fs : gmap string string) : process :=
  match main a fs with
  | Ok (fs', err) => {| status := 0; files := fs'; stderr := err |}
  | Raise e => {| status := 1; files := fs; stderr := [Fatal e] |}
  end.

(** ** The vocabulary of the properties *)

(** What an iteration does to the loop state, read off the body run on
    the initial state: the row is skipped, a row is written (with
    [bad_p] incremented or not), or the run ends. *)
Inductive outcome :=
  | Skipped (why : skip_reason)
  | Written (row : string) (counted : bool)
  | Failed (e : exn).

Definition skip_reason_eqb (x y : skip_reason) : bool :=
  match x, y with
  | ShortRow, ShortRow | BadPosition, BadPosition
  | BadPValue, BadPValue => true
  | _, _ => false
  end.

Definition replay (o : outcome) (st : loop_state) : step :=
  match o with
  | Skipped ShortRow => Continue ShortRow st
  | Skipped BadPosition => Continue BadPosition (bump_bad_bp st)
  | Skipped BadPValue => Continue BadPValue (bump_bad_p st)
  | Written row false => Append (append_row row st)
  | Written row true => Append (append_row row (bump_bad_p st))
  | Failed e => Raises e
  end.

Definition is_skipped (why : skip_reason) (o : outcome) : bool :=
  match o with Skipped w => skip_reason_eqb w why | _ => false end.

Definition is_counted_write (o : outcome) : bool :=
  match o with Written _ true => true | _ => false end.

Definition is_failed (o : outcome) : bool :=
  match o with Failed _ => true | _ => false end.

Definition written_row (o : outcome) : list string :=
  match o with Written row _ => [row] | _ => [] end.

Section Outcomes.

Variable a : args.
Variables var_i p_i : nat.
Variable pcol_name : string.

Definition row_outcome (ln : string) : outcome :=
  match loop_body a var_i p_i pcol_name ln initial_state with
  | Continue why _ => Skipped why
  | Append st => Written (List.last (out_rows st) "") (negb (bad_p st =? 0)%nat)
  | Raises e => Failed e
  end.

(** The number of rows of [data] skipped for a given reason. *)
Definition skipped (why : skip_reason) (data : list string) : nat :=
  length (List.filter (fun ln => is_skipped why (row_outcome ln)) data).

(** The number of rows of [data] written although their p-value was
    counted in [bad_p]. *)
Definition tolerated (data : list string) : nat :=
  length (List.filter (fun ln => is_counted_write (row_outcome ln)) data).

(** The rows written for [data], in order. *)
Definition written_rows (data : list string) : list string :=
  flat_map (fun ln => written_row (row_outcome ln)) data.

(** The state that a loop over [data] without failure ends in. *)
Definition final_state (data : list string) (st : loop_state) : loop_state :=
  {| out_rows := out_rows st ++ written_rows data;
     bad_bp := bad_bp st + skipped BadPosition data;
     bad_p := bad_p st + skipped BadPValue data + tolerated data |}.

(** A row with enough fields to cover both resolved columns. *)
Definition long_enough (ln : string) : Prop :=
  (max var_i p_i < length (Py.split_tab ln))%nat.

Definition variant_of (ln : string) : string := nth var_i (Py.split_tab ln) "".
Definition p_str_of (ln : string) : string := nth p_i (Py.split_tab ln) "".

(** A row that reaches the p-value stage: it has enough fields and its
    position is read as the integer [z]. *)
Definition reaches_p_stage (ln : string) (z : Z) : Prop :=
  long_enough ln /\ parse_position a (variant_of ln) = Some z.

(** A parsing failure that strict mode turns into the end of the run:
    a position that cannot be read while [--allow-missing-bp] is off,
    or, for a row whose position is read, a p-value that is not a number
    while [--skip-nonpositive-p] is off. *)
Definition strict_failure (ln : string) : Prop :=
  long_enough ln /\
  ((parse_position a (variant_of ln) = None /\ allow_missing_bp a = false)
   \/ (is_Some (parse_position a (variant_of ln))
       /\ Py.float (p_str_of ln) = None
       /\ skip_nonpositive_p a = false)).

End Outcomes.

(** The table of the input file: its header line and its data lines. *)
Definition input_table (a : args) (fs : gmap string string)
    (first : string) (data : list string) : Prop :=
  exists text, fs !! pyseer a = Some text /\ read_lines text = first :: data.

(** The p-value column name [main] settles on, explicit or detected. *)
Definition resolved_pcol (a : args) (header : list string) : option string :=
  match pcol a with
  | None => detect_pcol header
  | Some name => Some name
  end.

(** The two columns resolve to indices of the header. *)
Definition columns_resolved (a : args) (header : list string)
    (var_i p_i : nat) (pcol_name : string) : Prop :=
  col_index header !! variant_col a = Some var_i
  /\ resolved_pcol a header = Some pcol_name
  /\ col_index header !! pcol_name = Some p_i.

(** The failure conditions of a run. *)
Definition failure_condition (a : args) (fs : gmap string string) : Prop :=
  (exists text, fs !! pyseer a = Some text /\ read_lines text = [])
  \/ (exists first data, input_table a fs first data
        /\ col_index (Py.split_tab first) !! variant_col a = None)
  \/ (exists first data, input_table a fs first data
        /\ (resolved_pcol a (Py.split_tab first)
              ≫= fun name => col_index (Py.split_tab first) !! name) = None)
  \/ (exists first data var_i p_i pcol_name ln,
        input_table a fs first data
        /\ columns_resolved a (Py.split_tab first) var_i p_i pcol_name
        /\ In ln data /\ strict_failure a var_i p_i ln).

End Script.

(** A candidate that some header name equals once lower-cased, and the
    first such candidate in the order of the list. *)
Definition candidate_present (header : list string) (c : string) : bool :=
  existsb (fun h => String.eqb (Py.lower h) c) header.

Definition first_candidate (header : list string) : option string :=
  List.find (candidate_present header) candidates.

(** [h] is the first, or the last, element of [l] that satisfies [p]. *)
Definition first_such {A} (p : A -> bool) (l : list A) (h : A) : Prop :=
  exists pre post,
    l = (pre ++ h :: post)%list /\ p h = true
    /\ Forall (fun x => p x = false) pre.

Definition last_such {A} (p : A -> bool) (l : list A) (h : A) : Prop :=
  exists pre post,
    l = (pre ++ h :: post)%list /\ p h = true
    /\ Forall (fun x => p x = false) post.

(** A text without a tab, without a newline, without either. *)
Definition no_tab (s : string) : bool :=
  Py.all_chars (fun c => negb (Py.ord c =? 9)%N) s.

Definition no_newline (s : string) : bool :=
  Py.all_chars (fun c => negb (Py.is_newline c)) s.

Definition plain (s : string) : bool := no_tab s && no_newline s.

(** A text without a carriage return: reading it in text mode, where a
    carriage return ends a line, gives the text itself. *)
Definition no_cr (s : string) : bool :=
  Py.all_chars (fun c => negb (Py.ord c =? 13)%N) s.

(** ** Worked inputs *)

(** A line of tab-separated fields, and a text of newline-terminated
    lines. *)
Definition tsv (fields : list string) : string := Py.join Py.tab fields.

Definition text_of (lines : list string) : string :=
  String.concat "" (map (fun l => l ++ Py.newline) lines).

(** A table with a row that is written, a blank line, a row whose
    p-value is zero and a row that is too short. *)
Definition sample_table : string :=
  text_of
    [tsv ["variant"; "lrt-pvalue"; "other"];
     tsv ["AE017143.1_12345_A_T"; "0.01"; "x"];
     "";
     tsv ["c_77_A"; "0"; "y"];
     "short"].

Definition sample_args : args := default_args "in.txt" "out.plot".

Definition sample_files : gmap string string := {[ "in.txt" := sample_table ]}.

(** What the run on [sample_table] leaves: its output file and its
    error stream. *)
Definition sample_output : string :=
  text_of
    [DEFAULT_HEADER;
     tsv ["26"; "."; "12345"; "2.0"; "2.0"; "0"];
     tsv ["26"; "."; "77"; "inf"; "inf"; "0"]].

Definition sample_files_after : gmap string string :=
  <["out.plot" := sample_output]> sample_files.

Definition sample_stderr : list diag :=
  [INFO 2 "out.plot" "lrt-pvalue" "variant"; WARN_p 1].

(** A table whose header has no column named [variant], only
    [Variant]. *)
Definition capital_table : string :=
  text_of
    [tsv ["Variant"; "LRT-PVALUE"];
     tsv ["c_77_A"; "0.01"]].

(** A table whose one row has a p-value of zero and a variant without
    a position field. *)
Definition no_position_table : string :=
  text_of
    [tsv ["variant"; "pvalue"];
     tsv ["abc"; "0"]].

(** A table whose one row has a p-value of zero. *)
Definition zero_p_table : string :=
  text_of
    [tsv ["variant"; "pvalue"];
     tsv ["c_77_A"; "0"]].

(** A table whose one row has a negative position. *)
Definition negative_table : string :=
  text_of
    [tsv ["variant"; "pvalue"];
     tsv ["c_-5_A"; "0"]].

(** A table whose second row has a p-value that is not a number. *)
Definition bad_p_table : string :=
  text_of
    [tsv ["variant"; "pvalue"];
     tsv ["c_77_A"; "0"];
     tsv ["c_78_A"; "NA"]].

Definition files_with (text : string) : gmap string string :=
  {[ "in.txt" := text ]}.

(** What the run on [negative_table] leaves. *)
Definition negative_files_after : gmap string string :=
  <["out.plot" :=
      text_of [DEFAULT_HEADER; tsv ["26"; "."; "-5"; "inf"; "inf"; "0"]]]>
    (files_with negative_table).

(** What the run on [zero_p_table] leaves. *)
Definition zero_p_files_after : gmap string string :=
  <["out.plot" :=
      text_of [DEFAULT_HEADER; tsv ["26"; "."; "77"; "inf"; "inf"; "0"]]]>
    (files_with zero_p_table).

Definition one_row_stderr : list diag :=
  [INFO 1 "out.plot" "pvalue" "variant"; WARN_p 1].

(** Further worked inputs: a lenient run, a run with an empty
    delimiter, a table with a header only, and an explicit p-value
    column that the header spells in capitals. *)
Definition lenient_args : args :=
  {| pyseer := "in.txt"; out := "out.plot"; chr_index := "26";
     variant_col := "variant"; pcol := None; variant_delim := "_";
     bp_field_index := 1; snp_name := "."; r2 := "0";
     skip_nonpositive_p := true; allow_missing_bp := true |}.

Definition empty_delim_args : args :=
  {| pyseer := "in.txt"; out := "out.plot"; chr_index := "26";
     variant_col := "variant"; pcol := None; variant_delim := "";
     bp_field_index := 1; snp_name := "."; r2 := "0";
     skip_nonpositive_p := true; allow_missing_bp := true |}.


Definition header_only_table : string :=
  text_of [tsv ["variant"; "pvalue"]].


(** A file of blank lines. *)
Definition blank_table : string := text_of [""; "  "; Py.tab].

(** The part of a text that follows its first [n] characters. *)
Fixpoint string_drop (n : nat) (s : string) : string :=
  match n, s with
  | O, _ => s
  | S _, EmptyString => EmptyString
  | S k, String _ s' => string_drop k s'
  end.

(** ** The runtime model on known values *)

Example split_variant :
  Py.split "AE017143.1_12345_A_T" "_" = Some ["AE017143.1"; "12345"; "A"; "T"].
Proof. reflexivity. Qed.

Example split_leftmost : Py.split "a__b_" "__" = Some ["a"; "b_"].
Proof. reflexivity. Qed.

Example split_empty_separator : Py.split "abc" "" = None.
Proof. reflexivity. Qed.

Example index_from_the_end :
  Py.index ["a"; "b"; "c"] (-1) = Some "c"
  /\ Py.index ["a"; "b"; "c"] (-4) = None
  /\ Py.index ["a"; "b"; "c"] 3 = None.
Proof. repeat split; reflexivity. Qed.

Example int_literals :
  map Py.int ["12345"; " 12 "; "-5"; "+5"; "1_0"; "007"; "-0"]
  = [Some 12345; Some 12; Some (-5); Some 5; Some 10; Some 7; Some 0]%Z
  /\ map Py.int [""; "1_"; "_1"; "1__0"; "+-5"; "+ 5"; "0x10"; "1e5"; "1.0"]
     = [None; None; None; None; None; None; None; None; None].
Proof. split; reflexivity. Qed.

Example float_literals :
  Py.float "0" = Some (S754_zero false)
  /\ Py.float "-0.0" = Some (S754_zero true)
  /\ Py.float "0.01" = Some (S754_finite false 5764607523034235 (-59))
  /\ Py.float "0.1" = Some (S754_finite false 7205759403792794 (-56))
  /\ Py.float "1e23" = Some (S754_finite false 5960464477539062 24)
  /\ Py.float " 1_0.5e-3 " = Some (S754_finite false 6052837899185947 (-59))
  /\ Py.float "5e-324" = Some (S754_finite false 1 (-1074))
  /\ Py.float "1e-400" = Some (S754_zero false)
  /\ Py.float "1e400" = Some (S754_infinity false)
  /\ Py.float "-Infinity" = Some (S754_infinity true)
  /\ Py.float "NaN" = Some S754_nan.
Proof. repeat split; vm_compute; reflexivity. Qed.

Example float_rejects :
  map Py.float [""; "."; "e5"; "1e"; "1_"; "1_.5"; "0x1p3"; "NA"; "1 2"]
  = [None; None; None; None; None; None; None; None; None].
Proof. reflexivity. Qed.

Example read_lines_drops_blank_lines :
  read_lines sample_table
  = [tsv ["variant"; "lrt-pvalue"; "other"];
     tsv ["AE017143.1_12345_A_T"; "0.01"; "x"];
     tsv ["c_77_A"; "0"; "y"];
     "short"].
Proof. reflexivity. Qed.

(** ** The row loop *)

Section LoopFacts.

Variable libm_log10 : spec_float -> spec_float.
Variable repr_finite : spec_float -> string.
Variable a : args.
Variables var_i p_i : nat.
Variable pcol_name : string.

Local Abbreviation body := (loop_body libm_log10 repr_finite a var_i p_i pcol_name).
Local Abbreviation loop := (for_loop libm_log10 repr_finite a var_i p_i pcol_name).
Local Abbreviation outcome_of := (row_outcome libm_log10 repr_finite a var_i p_i pcol_name).
Local Abbreviation skipped_by := (skipped libm_log10 repr_finite a var_i p_i pcol_name).
Local Abbreviation tolerated_in := (tolerated libm_log10 repr_finite a var_i p_i pcol_name).
Local Abbreviation rows_of := (written_rows libm_log10 repr_finite a var_i p_i pcol_name).

(** The way an iteration ends does not depend on the state it starts
    from: the state only accumulates. *)
Lemma loop_body_replay ln st : body ln st = replay (outcome_of ln) st.
Proof.
  unfold row_outcome, loop_body.
  destruct (length (Py.split_tab ln) <=? max var_i p_i)%nat; [reflexivity|].
  destruct (Py.split _ _) as [fields|]; [|reflexivity].
  destruct (Py.index fields _) as [bp|];
    [|destruct (allow_missing_bp a); reflexivity].
  destruct (Py.int bp) as [z|];
    [|destruct (allow_missing_bp a); reflexivity].
  destruct (Py.float _) as [x|];
    [|destruct (skip_nonpositive_p a); reflexivity].
  destruct (Py.float_le x Py.float_zero).
  - destruct (skip_nonpositive_p a); reflexivity.
  - destruct (safe_neglog10 libm_log10 x); reflexivity.
Qed.

Lemma loop_cons ln rest st :
  loop (ln :: rest) st =
  match replay (outcome_of ln) st with
  | Continue _ st' => loop rest st'
  | Append st' => loop rest st'
  | Raises e => Raise e
  end.
Proof. simpl. rewrite loop_body_replay. reflexivity. Qed.

Local Abbreviation final := (final_state libm_log10 repr_finite a var_i p_i pcol_name).

Lemma final_state_nil st : final [] st = st.
Proof.
  destruct st as [rows nb np].
  unfold final_state, skipped, tolerated, written_rows. simpl.
  rewrite app_nil_r. f_equal; lia.
Qed.

Lemma final_state_cons ln rest st :
  is_failed (outcome_of ln) = false ->
  match replay (outcome_of ln) st with
  | Continue _ st' => final rest st'
  | Append st' => final rest st'
  | Raises _ => st
  end = final (ln :: rest) st.
Proof.
  unfold final_state, skipped, tolerated, written_rows. simpl.
  destruct (outcome_of ln) as [[]|row []|e]; simpl; intros Hf;
    try discriminate; f_equal; try rewrite <- app_assoc; simpl;
    try reflexivity; lia.
Qed.

(** A loop in which no row fails runs to its end. *)
Lemma for_loop_ok data : forall st,
  Forall (fun ln => is_failed (outcome_of ln) = false) data ->
  loop data st = Ok (final data st).
Proof.
  induction data as [|ln rest IH]; intros st Hall.
  - simpl. now rewrite final_state_nil.
  - inversion Hall as [|? ? Hln Hrest]; subst.
    rewrite loop_cons, <- (final_state_cons ln rest st Hln).
    destruct (outcome_of ln) as [[]|row []|e]; simpl in *;
      try discriminate; now apply IH.
Qed.

(** A loop that runs to its end met no failing row. *)
Lemma for_loop_ok_inv data : forall st st',
  loop data st = Ok st' ->
  Forall (fun ln => is_failed (outcome_of ln) = false) data
  /\ st' = final data st.
Proof.
  induction data as [|ln rest IH]; intros st st' Hrun.
  - simpl in Hrun. injection Hrun as <-. split; [constructor|].
    now rewrite final_state_nil.
  - rewrite loop_cons in Hrun.
    assert (Hln : is_failed (outcome_of ln) = false)
      by (destruct (outcome_of ln) as [[]|row []|e]; simpl in *;
          [reflexivity..|discriminate]).
    rewrite <- (final_state_cons ln rest st Hln).
    enough (Forall (fun ln => is_failed (outcome_of ln) = false) rest
            /\ st' = match replay (outcome_of ln) st with
                     | Continue _ st1 => final rest st1
                     | Append st1 => final rest st1
                     | Raises _ => st
                     end) as [Hrest ->]
      by (split; [now constructor|reflexivity]).
    clear Hln. revert Hrun.
    destruct (outcome_of ln) as [[]|row []|e]; simpl;
      try discriminate; apply IH.
Qed.

(** A failing row ends the loop with an exception. *)
Lemma for_loop_raise data : forall st,
  Exists (fun ln => is_failed (outcome_of ln) = true) data ->
  exists e, loop data st = Raise e.
Proof.
  induction data as [|ln rest IH]; intros st Hex.
  - inversion Hex.
  - rewrite loop_cons.
    destruct (outcome_of ln) as [[]|row []|e] eqn:Ho; simpl;
      try (inversion Hex as [? ? Hln|? ? Hrest]; subst;
           [rewrite Ho in Hln; discriminate|now apply IH]).
    now exists e.
Qed.

(** Without failure every row is either written or skipped for one of
    the three reasons. *)
Lemma rows_partition data :
  Forall (fun ln => is_failed (outcome_of ln) = false) data ->
  length data =
  length (rows_of data) + skipped_by ShortRow data
  + skipped_by BadPosition data + skipped_by BadPValue data.
Proof.
  unfold skipped, written_rows.
  induction 1 as [|ln rest Hln _ IH]; [reflexivity|].
  simpl. destruct (outcome_of ln) as [[]|row []|e]; simpl in *;
    try discriminate; lia.
Qed.

Lemma tolerated_le_rows data : tolerated_in data <= length (rows_of data).
Proof.
  unfold tolerated, written_rows.
  induction data as [|ln rest IH]; [reflexivity|].
  simpl. destruct (outcome_of ln) as [[]|row []|e]; simpl; lia.
Qed.

(** The body never fails in [safe_neglog10]: the guard [p <= 0.0]
    covers every argument on which [math.log10] raises. *)
Lemma safe_neglog10_total x : exists v, safe_neglog10 libm_log10 x = Ok v.
Proof.
  unfold safe_neglog10.
  destruct x as [[]|[]| |[] m e]; simpl; eauto.
Qed.

(** What each outcome says about the row. *)
Lemma row_outcome_spec ln :
  match outcome_of ln with
  | Skipped ShortRow => ~ long_enough var_i p_i ln
  | Skipped BadPosition =>
      long_enough var_i p_i ln
      /\ parse_position a (variant_of var_i ln) = None
      /\ allow_missing_bp a = true
      /\ variant_delim a <> ""
  | Skipped BadPValue =>
      long_enough var_i p_i ln
      /\ is_Some (parse_position a (variant_of var_i ln))
      /\ skip_nonpositive_p a = true
      /\ (Py.float (p_str_of p_i ln) = None
          \/ exists x, Py.float (p_str_of p_i ln) = Some x
                       /\ Py.float_le x Py.float_zero = true)
  | Written row counted =>
      long_enough var_i p_i ln
      /\ exists bp z x v,
           position_field a (variant_of var_i ln) = Some bp
           /\ Py.int bp = Some z
           /\ Py.float (p_str_of p_i ln) = Some x
           /\ Py.float_le x Py.float_zero = counted
           /\ (counted = true -> skip_nonpositive_p a = false)
           /\ v = (if counted then Py.float_inf
                   else Py.float_neg
                          (default Py.float_zero
                             (Py.math_log10 libm_log10 x)))
           /\ row = output_row repr_finite a z v
  | Failed e =>
      long_enough var_i p_i ln
      /\ ((parse_position a (variant_of var_i ln) = None
           /\ (allow_missing_bp a = false \/ variant_delim a = ""))
          \/ (is_Some (parse_position a (variant_of var_i ln))
              /\ Py.float (p_str_of p_i ln) = None
              /\ skip_nonpositive_p a = false
              /\ e = SystemExit
                       (PNotNumeric (p_str_of p_i ln) pcol_name
                          (variant_of var_i ln))))
  end.
Proof.
  unfold row_outcome, loop_body, long_enough, parse_position, position_field,
    variant_of, p_str_of.
  destruct (length (Py.split_tab ln) <=? max var_i p_i)%nat eqn:Hlen.
  { apply Nat.leb_le in Hlen. lia. }
  apply Nat.leb_gt in Hlen.
  destruct (Py.split _ (variant_delim a)) as [fields|] eqn:Hsplit; simpl.
  2:{ split; [exact Hlen|]. left. split; [reflexivity|]. right.
      unfold Py.split in Hsplit.
      destruct (variant_delim a); [reflexivity|discriminate]. }
  assert (Hdelim : variant_delim a <> "").
  { intros Heq. rewrite Heq in Hsplit. discriminate. }
  destruct (Py.index fields _) as [bp|] eqn:Hidx; simpl.
  2:{ destruct (allow_missing_bp a); simpl; auto. }
  destruct (Py.int bp) as [z|] eqn:Hint; simpl.
  2:{ destruct (allow_missing_bp a); simpl; auto. }
  destruct (Py.float _) as [x|] eqn:Hfloat.
  2:{ destruct (skip_nonpositive_p a); simpl;
        (split; [exact Hlen|]); [split; [eauto|auto]|].
      right. split; [eauto|auto]. }
  destruct (Py.float_le x Py.float_zero) eqn:Hle.
  - destruct (skip_nonpositive_p a) eqn:Hskip; simpl.
    + split; [exact Hlen|]. split; [eauto|]. split; [reflexivity|].
      right. eauto.
    + split; [exact Hlen|].
      exists bp, z, x, Py.float_inf.
      repeat split; auto.
  - unfold safe_neglog10. rewrite Hle.
    destruct (safe_neglog10_total x) as [v Hv].
    unfold safe_neglog10 in Hv. rewrite Hle in Hv.
    destruct (Py.math_log10 libm_log10 x) as [y|] eqn:Hy; [|discriminate].
    simpl. split; [exact Hlen|].
    exists bp, z, x, (Py.float_neg y).
    rewrite Hy. repeat split; auto. discriminate.
Qed.

(** The rows that each [continue] skips. *)
Lemma skip_reason_iff ln :
  (outcome_of ln = Skipped ShortRow <-> ~ long_enough var_i p_i ln)
  /\ (outcome_of ln = Skipped BadPosition <->
      long_enough var_i p_i ln
      /\ parse_position a (variant_of var_i ln) = None
      /\ allow_missing_bp a = true
      /\ variant_delim a <> "")
  /\ (outcome_of ln = Skipped BadPValue <->
      long_enough var_i p_i ln
      /\ is_Some (parse_position a (variant_of var_i ln))
      /\ skip_nonpositive_p a = true
      /\ (Py.float (p_str_of p_i ln) = None
          \/ exists x, Py.float (p_str_of p_i ln) = Some x
                       /\ Py.float_le x Py.float_zero = true)).
Proof.
  pose proof (row_outcome_spec ln) as Hspec.
  destruct (outcome_of ln) as [[]|row c|e];
    (split; [|split]); split; intros H;
    try discriminate H; try reflexivity; try exact Hspec; try tauto;
    exfalso.
  all: unfold parse_position in *.
  all: repeat match goal with
         | H : _ /\ _ |- _ => destruct H
         | H : exists _, _ |- _ => destruct H
         | H : is_Some _ |- _ => destruct H
         | H : _ \/ _ |- _ => destruct H
         end.
  all: try match goal with
         | H : position_field _ _ = Some _ |- _ => rewrite H in *; simpl in *
         end.
  all: try congruence.
  assert (c = true) as Hc by congruence.
  match goal with Hs : c = true -> _ |- _ => specialize (Hs Hc) end.
  congruence.
Qed.

End LoopFacts.

(** ** The run as a whole *)

Section MainFacts.

Variable libm_log10 : spec_float -> spec_float.
Variable repr_finite : spec_float -> string.

Local Abbreviation run := (main libm_log10 repr_finite).
Local Abbreviation loop := (for_loop libm_log10 repr_finite).

(** Once the table is read and both columns are resolved, the run is
    the row loop followed by the write. *)
Lemma main_resolved a fs first data var_i p_i pcol_name :
  input_table a fs first data ->
  columns_resolved a (Py.split_tab first) var_i p_i pcol_name ->
  run a fs =
  match loop a var_i p_i pcol_name data initial_state with
  | Raise e => Raise e
  | Ok st =>
      Ok (<[out a := render (out_rows st)]> fs,
          INFO (length (out_rows st) - 1) (out a) pcol_name (variant_col a)
          :: warnings st)
  end.
Proof.
  intros (text & Hfile & Hlines) (Hvar & Hp & Hpi).
  unfold main, resolved_pcol in *.
  rewrite Hfile, Hlines. simpl. rewrite Hvar, Hp, Hpi. reflexivity.
Qed.

(** A run that ends normally read a table, resolved both columns and
    ran the row loop to its end. *)
Lemma main_ok_inv a fs fs' err :
  run a fs = Ok (fs', err) ->
  exists first data var_i p_i pcol_name st,
    input_table a fs first data
    /\ columns_resolved a (Py.split_tab first) var_i p_i pcol_name
    /\ loop a var_i p_i pcol_name data initial_state = Ok st
    /\ fs' = <[out a := render (out_rows st)]> fs
    /\ err = INFO (length (out_rows st) - 1) (out a) pcol_name (variant_col a)
             :: warnings st.
Proof.
  unfold main. intros Hrun.
  destruct (fs !! pyseer a) as [text|] eqn:Hfile; [|discriminate].
  destruct (read_lines text) as [|first data] eqn:Hlines; [discriminate|].
  simpl in Hrun.
  destruct (col_index (Py.split_tab first) !! variant_col a)
    as [var_i|] eqn:Hvar; [|discriminate].
  destruct (match pcol a with
            | Some name => Some name
            | None => detect_pcol (Py.split_tab first)
            end) as [pcol_name|] eqn:Hp; [|discriminate].
  destruct (col_index (Py.split_tab first) !! pcol_name)
    as [p_i|] eqn:Hpi; [|discriminate].
  destruct (loop a var_i p_i pcol_name data initial_state)
    as [st|e] eqn:Hloop; [|discriminate].
  injection Hrun as <- <-.
  exists first, data, var_i, p_i, pcol_name, st.
  split; [exists text; auto|].
  split; [|auto].
  split; [exact Hvar|]. split; [|exact Hpi].
  unfold resolved_pcol. destruct (pcol a); exact Hp.
Qed.

(** An exception leaves the files as they were and ends the process
    with status 1. *)
Lemma run_script_raise a fs e :
  run a fs = Raise e ->
  run_script libm_log10 repr_finite a fs
  = {| status := 1; files := fs; stderr := [Fatal e] |}.
Proof. unfold run_script. now intros ->. Qed.

Lemma run_script_ok a fs fs' err :
  run a fs = Ok (fs', err) ->
  run_script libm_log10 repr_finite a fs
  = {| status := 0; files := fs'; stderr := err |}.
Proof. unfold run_script. now intros ->. Qed.

(** The output of a run that ends normally, row by row. *)
Lemma main_ok_rows a fs fs' err :
  run a fs = Ok (fs', err) ->
  exists first data var_i p_i pcol_name,
    input_table a fs first data
    /\ columns_resolved a (Py.split_tab first) var_i p_i pcol_name
    /\ Forall (fun ln => is_failed
                 (row_outcome libm_log10 repr_finite a var_i p_i pcol_name ln)
                 = false) data
    /\ fs' = <[out a := render (DEFAULT_HEADER ::
                 written_rows libm_log10 repr_finite a var_i p_i pcol_name
                   data)]> fs
    /\ err = INFO (length (written_rows libm_log10 repr_finite a var_i p_i
                             pcol_name data))
               (out a) pcol_name (variant_col a)
             :: warnings (final_state libm_log10 repr_finite a var_i p_i
                            pcol_name data initial_state).
Proof.
  intros Hrun.
  apply main_ok_inv in Hrun
    as (first & data & var_i & p_i & pcol_name & st & Ht & Hc & Hl & -> & ->).
  apply for_loop_ok_inv in Hl as [Hall ->].
  exists first, data, var_i, p_i, pcol_name.
  split; [exact Ht|]. split; [exact Hc|]. split; [exact Hall|].
  split; [reflexivity|].
  f_equal. f_equal. simpl. now rewrite Nat.sub_0_r.
Qed.

End MainFacts.

(** ** Texts and numbers *)

Lemma append_cons c (s t : string) : String c s ++ t = String c (s ++ t).
Proof. reflexivity. Qed.

Lemma append_assoc (s t u : string) : (s ++ t) ++ u = s ++ t ++ u.
Proof.
  induction s as [|c s IH]; [reflexivity|].
  rewrite !append_cons. now f_equal.
Qed.

Lemma append_nil_r (s : string) : s ++ "" = s.
Proof.
  induction s as [|c s IH]; [reflexivity|].
  rewrite append_cons. now f_equal.
Qed.

(** The written text is its rows, each closed by a newline. *)
Lemma render_text_of h rows : render (h :: rows) = text_of (h :: rows).
Proof.
  unfold render, text_of, Py.join. revert h.
  induction rows as [|r rows IH]; intros h.
  - reflexivity.
  - specialize (IH r).
    change (String.concat Py.newline (h :: r :: rows))
      with (h ++ Py.newline ++ String.concat Py.newline (r :: rows)).
    rewrite !append_assoc, IH.
    change (map (fun l => l ++ Py.newline) (h :: r :: rows))
      with ((h ++ Py.newline) :: map (fun l => l ++ Py.newline) (r :: rows)).
    remember (map (fun l => l ++ Py.newline) (r :: rows)) as tl eqn:Htl.
    destruct tl as [|x tl]; [discriminate|].
    change (String.concat "" ((h ++ Py.newline) :: x :: tl))
      with ((h ++ Py.newline) ++ "" ++ String.concat "" (x :: tl)).
    simpl. now rewrite append_assoc.
Qed.

(** *** Reading a written text back *)

Lemma all_chars_append p (s t : string) :
  Py.all_chars p (s ++ t) = Py.all_chars p s && Py.all_chars p t.
Proof.
  induction s as [|c s IH]; [reflexivity|].
  rewrite append_cons. simpl. now rewrite IH, andb_assoc.
Qed.

Lemma all_chars_join p sep l :
  Py.all_chars p sep = true ->
  Forall (fun f => Py.all_chars p f = true) l ->
  Py.all_chars p (Py.join sep l) = true.
Proof.
  intros Hsep Hl. unfold Py.join.
  induction Hl as [|f l Hf Hl IH]; [reflexivity|].
  destruct l as [|g l]; [exact Hf|].
  change (String.concat sep (f :: g :: l))
    with (f ++ sep ++ String.concat sep (g :: l)).
  now rewrite !all_chars_append, Hf, Hsep, IH.
Qed.

Lemma text_of_cons l ls : text_of (l :: ls) = l ++ Py.newline ++ text_of ls.
Proof.
  unfold text_of. destruct ls as [|y ls].
  - change (String.concat "" (map (fun l => l ++ Py.newline) [l]))
      with (l ++ Py.newline).
    change (String.concat "" (map (fun l => l ++ Py.newline) []))
      with "".
    now rewrite append_nil_r.
  - change (map (fun l => l ++ Py.newline) (l :: y :: ls))
      with ((l ++ Py.newline)
            :: (y ++ Py.newline) :: map (fun l => l ++ Py.newline) ls).
    change (String.concat "" ((l ++ Py.newline) :: (y ++ Py.newline)
                              :: map (fun l => l ++ Py.newline) ls))
      with ((l ++ Py.newline) ++ ""
            ++ String.concat "" ((y ++ Py.newline)
                                 :: map (fun l => l ++ Py.newline) ls)).
    now rewrite append_assoc.
Qed.

(** A line without a newline is read back whole. *)
Lemma file_lines_line l rest :
  no_newline l = true ->
  Py.file_lines (l ++ Py.newline ++ rest)
  = (l ++ Py.newline) :: Py.file_lines rest.
Proof.
  unfold no_newline. induction l as [|c l IH]; intros Hl.
  - reflexivity.
  - simpl in Hl. apply andb_true_iff in Hl as [Hc Hl].
    apply negb_true_iff in Hc.
    rewrite !append_cons. simpl. rewrite Hc, (IH Hl). reflexivity.
Qed.

Lemma file_lines_text_of ls :
  Forall (fun l => no_newline l = true) ls ->
  Py.file_lines (text_of ls) = map (fun l => l ++ Py.newline) ls.
Proof.
  induction 1 as [|l ls Hl _ IH]; [reflexivity|].
  rewrite text_of_cons, (file_lines_line _ _ Hl), IH. reflexivity.
Qed.

Lemma prefix_empty s : String.prefix "" s = true.
Proof. now destruct s. Qed.

Lemma prefix_tab c s :
  String.prefix Py.tab (String c s)
  = if ascii_dec (ascii_of_N 9) c then true else false.
Proof.
  unfold Py.tab. cbn [String.prefix].
  destruct (ascii_dec (ascii_of_N 9) c); [apply prefix_empty|reflexivity].
Qed.

(** One step of the split at tabs. *)
Lemma split_from_step acc c s :
  Py.split_from Py.tab 0 acc (String c s)
  = if ascii_dec (ascii_of_N 9) c
    then string_of_list_ascii (rev acc) :: Py.split_from Py.tab 0 [] s
    else Py.split_from Py.tab 0 (c :: acc) s.
Proof.
  cbn [Py.split_from]. rewrite prefix_tab.
  destruct (ascii_dec (ascii_of_N 9) c); reflexivity.
Qed.

(** Splitting at tabs reads a field without a tab to its end. *)
Lemma split_from_field acc f s :
  no_tab f = true ->
  Py.split_from Py.tab 0 acc (f ++ s)
  = Py.split_from Py.tab 0 (rev (list_ascii_of_string f) ++ acc)%list s.
Proof.
  unfold no_tab. revert acc. induction f as [|c f IH]; intros acc Hf.
  - reflexivity.
  - simpl in Hf. apply andb_true_iff in Hf as [Hc Hf].
    apply negb_true_iff, N.eqb_neq in Hc.
    rewrite append_cons, split_from_step.
    destruct (ascii_dec (ascii_of_N 9) c) as [<-|Hne];
      [exfalso; apply Hc; reflexivity|].
    rewrite (IH (c :: acc) Hf).
    cbn [list_ascii_of_string rev]. now rewrite <- app_assoc.
Qed.

Lemma split_from_tab acc s :
  Py.split_from Py.tab 0 acc (Py.tab ++ s)
  = string_of_list_ascii (rev acc) :: Py.split_from Py.tab 0 [] s.
Proof.
  change (Py.tab ++ s) with (String (ascii_of_N 9) s).
  rewrite split_from_step.
  destruct (ascii_dec (ascii_of_N 9) (ascii_of_N 9)); [reflexivity|congruence].
Qed.

Lemma split_from_tsv f fields : forall acc,
  Forall (fun g => no_tab g = true) (f :: fields) ->
  Py.split_from Py.tab 0 acc (tsv (f :: fields))
  = string_of_list_ascii (rev acc ++ list_ascii_of_string f)%list :: fields.
Proof.
  revert f. induction fields as [|g fields IH]; intros f acc Hall.
  - inversion Hall as [|? ? Hf _]; subst.
    change (tsv [f]) with f. rewrite <- (append_nil_r f) at 1.
    rewrite (split_from_field _ _ _ Hf). simpl.
    now rewrite rev_app_distr, rev_involutive.
  - inversion Hall as [|? ? Hf Hrest]; subst.
    change (tsv (f :: g :: fields)) with (f ++ Py.tab ++ tsv (g :: fields)).
    rewrite (split_from_field _ _ _ Hf), split_from_tab, (IH g [] Hrest).
    simpl. rewrite rev_app_distr, rev_involutive.
    now rewrite string_of_list_ascii_of_string.
Qed.

(** Fields without tabs are read back from the line that joins them. *)
Lemma split_tab_tsv f fields :
  Forall (fun g => no_tab g = true) (f :: fields) ->
  Py.split_tab (tsv (f :: fields)) = f :: fields.
Proof.
  intros Hall. unfold Py.split_tab.
  rewrite (split_from_tsv f fields [] Hall). simpl.
  now rewrite string_of_list_ascii_of_string.
Qed.

Lemma isdigit_plain c :
  Py.isdigit c = true ->
  Py.isspace_num c = false
  /\ (Py.ord c =? 45)%N = false /\ (Py.ord c =? 43)%N = false
  /\ (Py.ord c =? 95)%N = false.
Proof.
  unfold Py.isdigit, Py.isspace_num. intros H.
  apply andb_true_iff in H as [H1 H2].
  apply N.leb_le in H1. apply N.leb_le in H2.
  repeat split;
    repeat (apply orb_false_iff; split);
    try (apply andb_false_iff; right);
    try (apply N.eqb_neq); try (apply N.leb_gt); lia.
Qed.

Lemma lstrip_by_head p c s : p c = false -> Py.lstrip_by p (String c s) = String c s.
Proof. intros H. simpl. now rewrite H. Qed.

Lemma rstrip_by_none p s :
  Py.all_chars (fun c => negb (p c)) s = true -> Py.rstrip_by p s = s.
Proof.
  induction s as [|c s IH]; [reflexivity|]. simpl.
  intros H. apply andb_true_iff in H as [Hc Hs].
  rewrite (IH Hs). apply negb_true_iff in Hc. rewrite Hc.
  now destruct s.
Qed.

Lemma strip_by_none p s :
  Py.all_chars (fun c => negb (p c)) s = true -> Py.strip_by p s = s.
Proof.
  intros H. unfold Py.strip_by.
  assert (Hl : Py.lstrip_by p s = s).
  { destruct s as [|c s]; [reflexivity|]. simpl in H.
    apply andb_true_iff in H as [Hc _]. apply negb_true_iff in Hc.
    now apply lstrip_by_head. }
  rewrite Hl. now apply rstrip_by_none.
Qed.

Lemma all_chars_impl (p q : ascii -> bool) s :
  (forall c, p c = true -> q c = true) ->
  Py.all_chars p s = true -> Py.all_chars q s = true.
Proof.
  intros Hpq. induction s as [|c s IH]; [reflexivity|]. simpl.
  intros H. apply andb_true_iff in H as [Hc Hs].
  now rewrite (Hpq _ Hc), (IH Hs).
Qed.

Lemma string_of_uint_digits u :
  Py.all_chars Py.isdigit (NilEmpty.string_of_uint u) = true.
Proof. induction u; simpl; auto. Qed.

Lemma digits_us_digits s prev :
  Py.all_chars Py.isdigit s = true ->
  (prev = true \/ s <> "") ->
  Py.digits_us prev s = Some s.
Proof.
  revert prev. induction s as [|c s IH]; intros prev Hd Hne; simpl.
  - destruct Hne as [->|Hne]; [reflexivity|congruence].
  - simpl in Hd. apply andb_true_iff in Hd as [Hc Hs].
    rewrite Hc, (IH true Hs); [reflexivity|now left].
Qed.

Lemma string_of_uint_nonempty u :
  u <> Decimal.Nil -> NilEmpty.string_of_uint u <> "".
Proof. destruct u; simpl; congruence. Qed.

(** [int] reads a plain run of digits as the number it denotes. *)
Lemma int_of_digits u :
  u <> Decimal.Nil ->
  Py.int (NilEmpty.string_of_uint u) = Some (Z.of_uint u).
Proof.
  intros Hu. unfold Py.int.
  pose proof (string_of_uint_digits u) as Hd.
  pose proof (string_of_uint_nonempty u Hu) as Hne.
  rewrite strip_by_none.
  2:{ eapply all_chars_impl; [|exact Hd]. intros c Hc.
      apply isdigit_plain in Hc as [-> _]. reflexivity. }
  destruct (NilEmpty.string_of_uint u) as [|c s] eqn:Hs; [congruence|].
  assert (Hc : Py.isdigit c = true)
    by (simpl in Hd; now apply andb_true_iff in Hd as [? _]).
  destruct (isdigit_plain c Hc) as (_ & Hm & Hp & _).
  unfold Py.split_sign. rewrite Hm, Hp.
  rewrite digits_us_digits by (auto; right; congruence).
  rewrite <- Hs. unfold mbind, option_bind.
  rewrite NilEmpty.usu. reflexivity.
Qed.

Lemma int_of_minus_digits u :
  u <> Decimal.Nil ->
  Py.int (String "-" (NilEmpty.string_of_uint u)) = Some (- Z.of_uint u)%Z.
Proof.
  intros Hu. unfold Py.int.
  pose proof (string_of_uint_digits u) as Hd.
  pose proof (string_of_uint_nonempty u Hu) as Hne.
  rewrite strip_by_none.
  2:{ simpl. eapply all_chars_impl; [|exact Hd]. intros c Hc.
      apply isdigit_plain in Hc as [-> _]. reflexivity. }
  unfold Py.split_sign.
  change (Py.ord "-" =? 45)%N with true. cbv iota.
  rewrite digits_us_digits by (auto; right; congruence).
  unfold mbind, option_bind.
  rewrite NilEmpty.usu. reflexivity.
Qed.

Lemma string_of_uint_nonnil u :
  u <> Decimal.Nil -> NilZero.string_of_uint u = NilEmpty.string_of_uint u.
Proof. destruct u; [congruence|reflexivity..]. Qed.

(** The text of an integer reads back as that integer. *)
Lemma int_str_int z : Py.int (Py.str_int z) = Some z.
Proof.
  unfold Py.str_int.
  rewrite <- (DecimalZ.of_to z) at 2.
  destruct z as [|p|p]; unfold Z.to_int, NilZero.string_of_int, Z.of_int.
  - reflexivity.
  - pose proof (Unsigned.to_uint_nonnil p) as Hn.
    rewrite string_of_uint_nonnil by exact Hn. now apply int_of_digits.
  - pose proof (Unsigned.to_uint_nonnil p) as Hn.
    rewrite string_of_uint_nonnil by exact Hn.
    now apply int_of_minus_digits.
Qed.

(** A position field without a minus sign reads as a non-negative
    integer. *)
Lemma int_nonneg bp z :
  Py.int bp = Some z -> has_minus_sign bp = false -> (0 <= z)%Z.
Proof.
  unfold Py.int, has_minus_sign.
  destruct (Py.split_sign _) as [neg body]. simpl.
  intros H ->.
  destruct (Py.digits_us false body) as [ds|]; [|discriminate].
  simpl in H.
  destruct (NilEmpty.uint_of_string ds) as [u|]; [|discriminate].
  simpl in H. injection H as <-.
  unfold Z.of_uint. lia.
Qed.

Lemma string_of_uint_plain u : plain (NilEmpty.string_of_uint u) = true.
Proof. induction u; simpl; auto. Qed.

(** The text of an integer holds digits and a sign only. *)
Lemma str_int_plain z : plain (Py.str_int z) = true.
Proof.
  unfold Py.str_int.
  destruct z as [|p|p]; unfold Z.to_int, NilZero.string_of_int;
    try reflexivity;
    rewrite string_of_uint_nonnil by apply Unsigned.to_uint_nonnil.
  - apply string_of_uint_plain.
  - pose proof (string_of_uint_plain (Pos.to_uint p)) as H.
    unfold plain, no_tab, no_newline in *. simpl.
    apply andb_true_iff in H as [-> ->]. reflexivity.
Qed.

Lemma str_float_plain repr_finite v :
  (forall x, plain (repr_finite x) = true) ->
  plain (Py.str_float repr_finite v) = true.
Proof. intros H. destruct v as [s|[]| |s m e]; simpl; auto. Qed.

(** ** Column resolution *)

Lemma find_first_such {A} (p : A -> bool) l h :
  List.find p l = Some h -> first_such p l h.
Proof.
  induction l as [|x l IH]; [discriminate|]. simpl.
  destruct (p x) eqn:Hx.
  - intros [= ->]. exists [], l. auto.
  - intros H. destruct (IH H) as (pre & post & -> & Hh & Hpre).
    exists (x :: pre), post. auto.
Qed.

Lemma find_rev_last_such {A} (p : A -> bool) l h :
  List.find p (rev l) = Some h -> last_such p l h.
Proof.
  induction l as [|x l IH] using rev_ind; [discriminate|].
  rewrite rev_unit. simpl.
  destruct (p x) eqn:Hx.
  - intros [= ->]. exists l, []. auto.
  - intros H. destruct (IH H) as (pre & post & -> & Hh & Hpost).
    exists pre, (post ++ [x])%list. rewrite <- app_assoc. simpl.
    repeat split; auto. apply Forall_app. auto.
Qed.

Lemma find_rev_is_Some {A} (p : A -> bool) l :
  is_Some (List.find p (rev l)) <-> existsb p l = true.
Proof.
  rewrite existsb_exists. split.
  - intros [h Hh]. apply find_some in Hh as [Hin Hp].
    exists h. split; [now apply in_rev|exact Hp].
  - intros (h & Hin & Hp).
    destruct (List.find p (rev l)) as [x|] eqn:Hf; [eauto|].
    apply in_rev in Hin.
    pose proof (find_none _ _ Hf _ Hin). congruence.
Qed.

(** The lower-cased lookup holds, for each key, the last header name
    that lower-cases to it. *)
Lemma lower_dict_lookup header c :
  lower_dict header !! c
  = List.find (fun h => String.eqb (Py.lower h) c) (rev header).
Proof.
  unfold lower_dict.
  induction header as [|h header IH] using rev_ind; [reflexivity|].
  rewrite foldl_app, rev_unit. simpl.
  rewrite lookup_insert. destruct (String.eqb_spec (Py.lower h) c) as [->|Hne].
  - now rewrite decide_True.
  - now rewrite decide_False.
Qed.

Lemma lower_dict_present header c :
  is_Some (lower_dict header !! c) <-> candidate_present header c = true.
Proof. rewrite lower_dict_lookup. apply find_rev_is_Some. Qed.

(** The candidate loop returns the entry of the first candidate that
    is a key of the lookup. *)
Lemma detect_pcol_candidates_find header cs :
  detect_pcol_candidates (lower_dict header) cs
  = List.find (candidate_present header) cs
    ≫= fun c => lower_dict header !! c.
Proof.
  induction cs as [|c cs IH]; [reflexivity|]. simpl.
  destruct (lower_dict header !! c) as [h|] eqn:Hc.
  - assert (Hp : candidate_present header c = true)
      by (apply lower_dict_present; eauto).
    rewrite Hp. simpl. now rewrite Hc.
  - assert (Hp : candidate_present header c = false).
    { destruct (candidate_present header c) eqn:Hp; [|reflexivity].
      apply lower_dict_present in Hp as [h Hh]. congruence. }
    rewrite Hp. exact IH.
Qed.

Lemma detect_pcol_heuristic_find header :
  detect_pcol_heuristic header = List.find looks_like_pvalue header.
Proof.
  induction header as [|h header IH]; [reflexivity|]. simpl.
  now rewrite IH.
Qed.

(** With a candidate present, the detected column is the last header
    name that lower-cases to the first such candidate. *)
Lemma detect_pcol_candidate header c :
  first_candidate header = Some c ->
  detect_pcol header
  = List.find (fun h => String.eqb (Py.lower h) c) (rev header)
  /\ is_Some (detect_pcol header).
Proof.
  unfold first_candidate, detect_pcol. intros Hc.
  rewrite detect_pcol_candidates_find, Hc. simpl.
  apply find_some in Hc as [_ Hp].
  apply lower_dict_present in Hp as [h Hh].
  rewrite Hh, <- lower_dict_lookup, Hh. eauto.
Qed.

(** Without one, it is the first header name that looks like a
    p-value column. *)
Lemma detect_pcol_fallback header :
  first_candidate header = None ->
  detect_pcol header = List.find looks_like_pvalue header.
Proof.
  unfold first_candidate, detect_pcol. intros Hc.
  rewrite detect_pcol_candidates_find, Hc. simpl.
  apply detect_pcol_heuristic_find.
Qed.

Lemma foldl_insert_None (l : list (nat * string)) (d : gmap string nat) k :
  foldl (fun d '(i, name) => <[name := i]> d) d l !! k = None
  <-> d !! k = None /\ ~ In k (l.*2).
Proof.
  revert d. induction l as [|[i n] l IH]; intros d; simpl.
  - tauto.
  - rewrite IH, lookup_insert_None. split.
    + intros [[Hd Hn] Hl]. split; [exact Hd|]. intros [->|Hin]; tauto.
    + intros [Hd Hl]. repeat split; auto.
Qed.

(** A name is a key of the column index exactly when the header holds
    it, letter case included. *)
Lemma col_index_None header name :
  col_index header !! name = None <-> ~ In name header.
Proof.
  unfold col_index, enumerate. rewrite foldl_insert_None.
  rewrite snd_zip by (rewrite length_seq; lia).
  rewrite lookup_empty. tauto.
Qed.

(** ** Failures *)

(** A strict-mode parsing failure makes the iteration raise. *)
Lemma strict_failure_fails libm_log10 repr_finite a var_i p_i pcol_name ln :
  strict_failure a var_i p_i ln ->
  is_failed (row_outcome libm_log10 repr_finite a var_i p_i pcol_name ln)
  = true.
Proof.
  intros [Hlong Hfail].
  pose proof (row_outcome_spec libm_log10 repr_finite a var_i p_i pcol_name ln)
    as Hspec.
  destruct (row_outcome _ _ _ _ _ _ ln) as [[]|row c|e]; simpl;
    [exfalso..|reflexivity].
  - tauto.
  - destruct Hspec as (_ & Hpos & Hallow & _).
    destruct Hfail as [[_ Hstrict]|[[z Hz] _]]; congruence.
  - destruct Hspec as (_ & [z Hz] & Hskip & Hp).
    destruct Hfail as [[Hnone _]|(_ & Hfloat & Hstrict)]; congruence.
  - destruct Hspec as (_ & bp & z & x & v & Hbp & Hint & Hfloat & _).
    assert (Hz : parse_position a (variant_of var_i ln) = Some z)
      by (unfold parse_position; rewrite Hbp; exact Hint).
    destruct Hfail as [[Hnone _]|(_ & Hnum & _)]; congruence.
Qed.

(** Each failure condition makes [main] raise. *)
Lemma failure_condition_raises libm_log10 repr_finite a fs :
  failure_condition a fs ->
  exists e, main libm_log10 repr_finite a fs = Raise e.
Proof.
  intros Hfail.
  destruct Hfail as [(text & Hfile & Hlines)
    |[(first & data & (text & Hfile & Hlines) & Hvar)
    |[(first & data & (text & Hfile & Hlines) & Hp)
    |(first & data & var_i & p_i & pcol_name & ln & Ht & Hc & Hin & Hrow)]]].
  - unfold main. rewrite Hfile, Hlines. eauto.
  - unfold main. rewrite Hfile, Hlines. simpl. rewrite Hvar. eauto.
  - unfold main, resolved_pcol in *. rewrite Hfile, Hlines. simpl.
    destruct (col_index (Py.split_tab first) !! variant_col a); [|eauto].
    destruct (match pcol a with
              | Some name => Some name
              | None => detect_pcol (Py.split_tab first)
              end) as [name|]; [|eauto].
    simpl in Hp. rewrite Hp. eauto.
  - rewrite (main_resolved _ _ _ _ _ _ _ _ _ Ht Hc).
    destruct (for_loop_raise libm_log10 repr_finite a var_i p_i pcol_name
                data initial_state) as [e He].
    { apply List.Exists_exists. exists ln. split; [exact Hin|].
      now apply strict_failure_fails. }
    rewrite He. eauto.
Qed.

(** C3.  Each failure condition (an input without non-blank lines, a
    variant column that the header lacks, a p-value column that does
    not resolve, a strict-mode failure to read a position or a p-value
    on some row) ends the run with status 1 and leaves the files as
    they were; a run that raises writes nothing; and the file that a
    normal run writes is the header and the rows of the whole table,
    none of whose rows failed. *)
Theorem failure_writes_nothing libm_log10 repr_finite a fs :
  (failure_condition a fs ->
   status (run_script libm_log10 repr_finite a fs) = 1%Z
   /\ status (run_script libm_log10 repr_finite a fs) <> 0%Z
   /\ files (run_script libm_log10 repr_finite a fs) = fs)
  /\ (forall e, main libm_log10 repr_finite a fs = Raise e ->
        files (run_script libm_log10 repr_finite a fs) = fs)
  /\ (forall fs' err, main libm_log10 repr_finite a fs = Ok (fs', err) ->
        exists first data var_i p_i pcol_name,
          input_table a fs first data
          /\ columns_resolved a (Py.split_tab first) var_i p_i pcol_name
          /\ Forall (fun ln =>
                 is_failed (row_outcome libm_log10 repr_finite a var_i p_i
                              pcol_name ln) = false) data
          /\ fs' = <[out a :=
                      render (DEFAULT_HEADER ::
                        written_rows libm_log10 repr_finite a var_i p_i
                          pcol_name data)]> fs).
Proof.
  split; [|split].
  - intros Hfail.
    destruct (failure_condition_raises libm_log10 repr_finite a fs Hfail)
      as [e He].
    rewrite (run_script_raise _ _ _ _ _ He). simpl. auto.
  - intros e He. now rewrite (run_script_raise _ _ _ _ _ He).
  - intros fs' err Hrun.
    apply main_ok_rows in Hrun
      as (first & data & var_i & p_i & pcol_name & Ht & Hc & Hall & -> & _).
    exists first, data, var_i, p_i, pcol_name. auto.
Qed.

Lemma failure_writes_nothing_witness :
  failure_condition sample_args (files_with bad_p_table)
  /\ status (run_script sample_log10 sample_repr sample_args
               (files_with bad_p_table)) = 1%Z
  /\ status (run_script sample_log10 sample_repr sample_args
               (files_with bad_p_table)) <> 0%Z
  /\ files (run_script sample_log10 sample_repr sample_args
              (files_with bad_p_table)) = files_with bad_p_table.
Proof.
  assert (H : failure_condition sample_args (files_with bad_p_table)).
  { right. right. right.
    exists (tsv ["variant"; "pvalue"]),
      [tsv ["c_77_A"; "0"]; tsv ["c_78_A"; "NA"]], 0, 1, "pvalue",
      (tsv ["c_78_A"; "NA"]).
    split; [exists bad_p_table; split; vm_compute; reflexivity|].
    split; [repeat split; vm_compute; reflexivity|].
    split; [right; left; reflexivity|].
    split; [vm_compute; lia|].
    right. split; [vm_compute; eauto|].
    split; vm_compute; reflexivity. }
  split; [exact H|].
  exact (proj1 (failure_writes_nothing sample_log10 sample_repr sample_args
                  (files_with bad_p_table)) H).
Defined.

(** ** The p-value stage *)

(** C2, as stated, fails: a row whose p-value is the number zero still
    ends the run when its position cannot be read in strict mode. *)
Lemma nonpositive_p_row_can_end_run :
  Py.float "0" = Some (S754_zero false)
  /\ Py.float_le (S754_zero false) Py.float_zero = true
  /\ read_lines no_position_table
     = [tsv ["variant"; "pvalue"]; tsv ["abc"; "0"]]
  /\ main sample_log10 sample_repr sample_args (files_with no_position_table)
     = Raise (SystemExit (MissingBPField "abc" 1 "_"))
  /\ status (run_script sample_log10 sample_repr sample_args
               (files_with no_position_table)) = 1%Z.
Proof. repeat split; vm_compute; reflexivity. Qed.

(** C2, amended.  For a row that reaches the p-value stage (it has
    enough fields and its position is read): when the p-value field is
    a number not above zero the iteration never raises, whatever the
    switches: with [--skip-nonpositive-p] the row is skipped and counted
    in [bad_p], otherwise it is counted and written with [inf] as the
    transformed value; when the field is not a number the row is
    skipped and counted with [--skip-nonpositive-p], and otherwise the
    iteration raises and the whole run ends with status 1, nothing
    written. *)
Theorem p_value_stage libm_log10 repr_finite a var_i p_i pcol_name ln z st :
  reaches_p_stage a var_i p_i ln z ->
  (forall x,
     Py.float (p_str_of p_i ln) = Some x ->
     Py.float_le x Py.float_zero = true ->
     loop_body libm_log10 repr_finite a var_i p_i pcol_name ln st
     = if skip_nonpositive_p a
       then Continue BadPValue (bump_bad_p st)
       else Append
              (append_row
                 (tsv [chr_index a; snp_name a; Py.str_int z; "inf"; "inf";
                       r2 a])
                 (bump_bad_p st)))
  /\ (Py.float (p_str_of p_i ln) = None ->
      loop_body libm_log10 repr_finite a var_i p_i pcol_name ln st
      = if skip_nonpositive_p a
        then Continue BadPValue (bump_bad_p st)
        else Raises (SystemExit
               (PNotNumeric (p_str_of p_i ln) pcol_name
                  (variant_of var_i ln))))
  /\ (forall fs first data,
        Py.float (p_str_of p_i ln) = None ->
        skip_nonpositive_p a = false ->
        input_table a fs first data ->
        columns_resolved a (Py.split_tab first) var_i p_i pcol_name ->
        In ln data ->
        status (run_script libm_log10 repr_finite a fs) = 1%Z
        /\ files (run_script libm_log10 repr_finite a fs) = fs).
Proof.
  intros [Hlong Hpos].
  assert (Hbody : forall st',
    loop_body libm_log10 repr_finite a var_i p_i pcol_name ln st'
    = match Py.float (p_str_of p_i ln) with
      | None =>
          if skip_nonpositive_p a then Continue BadPValue (bump_bad_p st')
          else Raises (SystemExit
                 (PNotNumeric (p_str_of p_i ln) pcol_name
                    (variant_of var_i ln)))
      | Some p_val =>
          if Py.float_le p_val Py.float_zero
          then if skip_nonpositive_p a
               then Continue BadPValue (bump_bad_p st')
               else Append
                      (append_row
                         (output_row repr_finite a z Py.float_inf)
                         (bump_bad_p st'))
          else match safe_neglog10 libm_log10 p_val with
               | Raise e => Raises e
               | Ok neglog =>
                   Append (append_row (output_row repr_finite a z neglog) st')
               end
      end).
  { intros st'. unfold loop_body.
    unfold long_enough in Hlong.
    destruct (length (Py.split_tab ln) <=? max var_i p_i)%nat eqn:Hlen;
      [apply Nat.leb_le in Hlen; lia|].
    unfold parse_position, position_field, variant_of in Hpos.
    destruct (Py.split _ (variant_delim a)) as [fields|]; [|discriminate].
    simpl in Hpos.
    destruct (Py.index fields _) as [bp|]; [|discriminate].
    simpl in Hpos. rewrite Hpos. reflexivity. }
  split; [|split].
  - intros x Hx Hle. rewrite Hbody, Hx, Hle. reflexivity.
  - intros Hnone. rewrite Hbody, Hnone. reflexivity.
  - intros fs first data Hnone Hstrict Ht Hc Hin.
    destruct (failure_condition_raises libm_log10 repr_finite a fs)
      as [e He]; [|rewrite (run_script_raise _ _ _ _ _ He); auto].
    right. right. right.
    exists first, data, var_i, p_i, pcol_name, ln.
    split; [exact Ht|]. split; [exact Hc|]. split; [exact Hin|].
    split; [exact Hlong|]. right. split; [eauto|]. split; assumption.
Qed.

Lemma p_value_stage_witness :
  reaches_p_stage sample_args 0 1 (tsv ["c_77_A"; "0"]) 77
  /\ Py.float (p_str_of 1 (tsv ["c_77_A"; "0"])) = Some (S754_zero false)
  /\ loop_body sample_log10 sample_repr sample_args 0 1 "pvalue"
       (tsv ["c_77_A"; "0"]) initial_state
     = Append
         (append_row (tsv ["26"; "."; "77"; "inf"; "inf"; "0"])
            (bump_bad_p initial_state)).
Proof.
  assert (H : reaches_p_stage sample_args 0 1 (tsv ["c_77_A"; "0"]) 77).
  { split; [vm_compute; lia|vm_compute; reflexivity]. }
  split; [exact H|]. split; [vm_compute; reflexivity|].
  exact (proj1 (p_value_stage sample_log10 sample_repr sample_args 0 1
                  "pvalue" (tsv ["c_77_A"; "0"]) 77 initial_state H)
           (S754_zero false) eq_refl eq_refl).
Defined.

(** ** The written rows *)

(** A written row carries the integer read from the position field. *)
Lemma written_row_record libm_log10 repr_finite a var_i p_i pcol_name ln row c :
  row_outcome libm_log10 repr_finite a var_i p_i pcol_name ln = Written row c ->
  exists bp z v,
    position_field a (variant_of var_i ln) = Some bp
    /\ Py.int bp = Some z
    /\ row = output_row repr_finite a z v.
Proof.
  intros Ho.
  pose proof (row_outcome_spec libm_log10 repr_finite a var_i p_i pcol_name ln)
    as Hspec.
  rewrite Ho in Hspec.
  destruct Hspec as (_ & bp & z & x & v & Hbp & Hint & _ & _ & _ & _ & Hrow).
  exists bp, z, v. auto.
Qed.

Lemma written_rows_records libm_log10 repr_finite a var_i p_i pcol_name data :
  exists recs : list (Z * spec_float),
    written_rows libm_log10 repr_finite a var_i p_i pcol_name data
    = map (fun '(z, v) => output_row repr_finite a z v) recs.
Proof.
  unfold written_rows.
  induction data as [|ln data [recs IH]]; [now exists []|].
  simpl. rewrite IH.
  destruct (row_outcome _ _ _ _ _ _ ln) as [why|row c|e] eqn:Ho;
    try (now exists recs).
  apply written_row_record in Ho as (bp & z & v & _ & _ & ->).
  now exists ((z, v) :: recs).
Qed.

(** When the labels and the text of floats hold no tab and no newline,
    a written row is one line, and its six fields are read back from
    it. *)
Lemma output_row_plain repr_finite a z v :
  plain (chr_index a) = true -> plain (snp_name a) = true ->
  plain (r2 a) = true -> (forall x, plain (repr_finite x) = true) ->
  no_newline (output_row repr_finite a z v) = true
  /\ Py.split_tab (output_row repr_finite a z v)
     = [chr_index a; snp_name a; Py.str_int z;
        Py.str_float repr_finite v; Py.str_float repr_finite v; r2 a].
Proof.
  intros Hchr Hsnp Hr2 Hrepr.
  pose proof (str_int_plain z) as Hz.
  pose proof (str_float_plain repr_finite v Hrepr) as Hv.
  unfold plain in *.
  apply andb_true_iff in Hchr as [? ?]. apply andb_true_iff in Hsnp as [? ?].
  apply andb_true_iff in Hr2 as [? ?]. apply andb_true_iff in Hz as [? ?].
  apply andb_true_iff in Hv as [? ?].
  split.
  - unfold output_row, no_newline.
    apply all_chars_join; [reflexivity|]. repeat constructor; assumption.
  - apply split_tab_tsv. repeat constructor; assumption.
Qed.

Lemma output_lines (rows : list string) :
  Forall (fun r => no_newline r = true) rows ->
  Py.file_lines (render (DEFAULT_HEADER :: rows))
  = map (fun l => l ++ Py.newline) (DEFAULT_HEADER :: rows).
Proof.
  intros Hrows. rewrite render_text_of.
  apply file_lines_text_of. constructor; [reflexivity|exact Hrows].
Qed.

Lemma written_rows_no_newline libm_log10 repr_finite a var_i p_i pcol_name
    data :
  plain (chr_index a) = true -> plain (snp_name a) = true ->
  plain (r2 a) = true -> (forall x, plain (repr_finite x) = true) ->
  Forall (fun r => no_newline r = true)
    (written_rows libm_log10 repr_finite a var_i p_i pcol_name data).
Proof.
  intros Hchr Hsnp Hr2 Hrepr.
  destruct (written_rows_records libm_log10 repr_finite a var_i p_i pcol_name
              data) as [recs ->].
  apply Forall_map, Forall_forall. intros [z v] _.
  now apply output_row_plain.
Qed.

(** C1.  On every run that ends normally, the output file holds the
    header and one row per data row of the input that was not skipped:
    the number of its data rows is the number of non-blank input lines
    after the header, minus the rows skipped for being short, for a
    position that could not be read, or for a bad p-value.  The
    theorem also says which rows each of the three counts, and that the
    lines read back from the file are the header and these rows when
    the labels and the text of floats hold no tab and no newline. *)
Theorem output_row_count libm_log10 repr_finite a fs fs' err :
  main libm_log10 repr_finite a fs = Ok (fs', err) ->
  exists first data var_i p_i pcol_name rows,
    input_table a fs first data
    /\ columns_resolved a (Py.split_tab first) var_i p_i pcol_name
    /\ fs' !! out a = Some (render (DEFAULT_HEADER :: rows))
    /\ In (INFO (length rows) (out a) pcol_name (variant_col a)) err
    /\ length rows =
       length data
       - (skipped libm_log10 repr_finite a var_i p_i pcol_name ShortRow data
          + skipped libm_log10 repr_finite a var_i p_i pcol_name
              BadPosition data
          + skipped libm_log10 repr_finite a var_i p_i pcol_name
              BadPValue data)
    /\ skipped libm_log10 repr_finite a var_i p_i pcol_name ShortRow data
       + skipped libm_log10 repr_finite a var_i p_i pcol_name BadPosition data
       + skipped libm_log10 repr_finite a var_i p_i pcol_name BadPValue data
       <= length data
    /\ (plain (chr_index a) = true -> plain (snp_name a) = true ->
        plain (r2 a) = true -> (forall x, plain (repr_finite x) = true) ->
        length (Py.file_lines (render (DEFAULT_HEADER :: rows)))
        = S (length rows))
    /\ forall ln,
         (row_outcome libm_log10 repr_finite a var_i p_i pcol_name ln
          = Skipped ShortRow <->
          ~ long_enough var_i p_i ln)
         /\ (row_outcome libm_log10 repr_finite a var_i p_i pcol_name ln
             = Skipped BadPosition <->
             long_enough var_i p_i ln
             /\ parse_position a (variant_of var_i ln) = None
             /\ allow_missing_bp a = true
             /\ variant_delim a <> "")
         /\ (row_outcome libm_log10 repr_finite a var_i p_i pcol_name ln
             = Skipped BadPValue <->
             long_enough var_i p_i ln
             /\ is_Some (parse_position a (variant_of var_i ln))
             /\ skip_nonpositive_p a = true
             /\ (Py.float (p_str_of p_i ln) = None
                 \/ exists x, Py.float (p_str_of p_i ln) = Some x
                              /\ Py.float_le x Py.float_zero = true)).
Proof.
  intros Hrun.
  apply main_ok_rows in Hrun
    as (first & data & var_i & p_i & pcol_name & Ht & Hc & Hall & -> & ->).
  exists first, data, var_i, p_i, pcol_name,
    (written_rows libm_log10 repr_finite a var_i p_i pcol_name data).
  split; [exact Ht|]. split; [exact Hc|].
  split; [apply lookup_insert_eq|].
  split; [now left|].
  pose proof (rows_partition _ _ _ _ _ _ _ Hall).
  split; [lia|]. split; [lia|].
  split; [|apply skip_reason_iff].
  intros Hchr Hsnp Hr2 Hrepr.
  rewrite output_lines by now apply written_rows_no_newline.
  now rewrite length_map.
Qed.

Lemma output_row_count_witness :
  main sample_log10 sample_repr sample_args sample_files
  = Ok (sample_files_after, sample_stderr)
  /\ exists first data var_i p_i pcol_name rows,
       input_table sample_args sample_files first data
       /\ columns_resolved sample_args (Py.split_tab first)
            var_i p_i pcol_name
       /\ sample_files_after !! out sample_args
          = Some (render (DEFAULT_HEADER :: rows))
       /\ In (INFO (length rows) (out sample_args) pcol_name
                (variant_col sample_args)) sample_stderr
       /\ length rows =
          length data
          - (skipped sample_log10 sample_repr sample_args var_i p_i
               pcol_name ShortRow data
             + skipped sample_log10 sample_repr sample_args var_i p_i
                 pcol_name BadPosition data
             + skipped sample_log10 sample_repr sample_args var_i p_i
                 pcol_name BadPValue data).
Proof.
  assert (Hrun : main sample_log10 sample_repr sample_args sample_files
                 = Ok (sample_files_after, sample_stderr))
    by (vm_compute; reflexivity).
  split; [exact Hrun|].
  destruct (output_row_count sample_log10 sample_repr sample_args
              sample_files _ _ Hrun)
    as (first & data & var_i & p_i & pcol_name & rows
        & Ht & Hc & Hfile & Hinfo & Hlen & _).
  exists first, data, var_i, p_i, pcol_name, rows.
  split; [exact Ht|]. split; [exact Hc|]. split; [exact Hfile|].
  split; [exact Hinfo|exact Hlen].
Defined.

(** C5.  The file of a run that ends normally is the fixed header line
    followed by one line per written row, each line closed by a
    newline; a row is six fields joined by tabs: the chromosome label,
    the site label, the position, the transformed value twice, and the
    r^2 placeholder.  When the three labels and the text of floats hold
    no tab and no newline, reading the file back line by line gives the
    header and these rows, and splitting a row at tabs gives these six
    fields. *)
Theorem output_format libm_log10 repr_finite a fs fs' err :
  main libm_log10 repr_finite a fs = Ok (fs', err) ->
  exists (recs : list (Z * spec_float)) (body : string),
    let row := fun '(bp, v) =>
      tsv [chr_index a; snp_name a; Py.str_int bp;
           Py.str_float repr_finite v; Py.str_float repr_finite v; r2 a] in
    let header :=
      tsv ["#CHR"; "SNP"; "BP"; "minLOG10(P)"; "log10(p)"; "r^2"] in
    fs' !! out a = Some (text_of (header :: map row recs))
    /\ fs' !! out a = Some (body ++ Py.newline)
    /\ (plain (chr_index a) = true -> plain (snp_name a) = true ->
        plain (r2 a) = true -> (forall x, plain (repr_finite x) = true) ->
        Py.file_lines (text_of (header :: map row recs))
        = map (fun l => l ++ Py.newline) (header :: map row recs)
        /\ Forall (fun '(bp, v) =>
                     Py.split_tab (row (bp, v))
                     = [chr_index a; snp_name a; Py.str_int bp;
                        Py.str_float repr_finite v;
                        Py.str_float repr_finite v; r2 a]) recs).
Proof.
  intros Hrun.
  apply main_ok_rows in Hrun
    as (first & data & var_i & p_i & pcol_name & Ht & Hc & Hall & -> & ->).
  destruct (written_rows_records libm_log10 repr_finite a var_i p_i pcol_name
              data) as [recs Hrecs].
  exists recs, (Py.join Py.newline
                  (DEFAULT_HEADER ::
                     written_rows libm_log10 repr_finite a var_i p_i pcol_name
                       data)).
  cbv zeta. rewrite lookup_insert_eq.
  split; [|split; [reflexivity|]].
  - rewrite render_text_of, Hrecs. reflexivity.
  - intros Hchr Hsnp Hr2 Hrepr. split.
    + rewrite <- render_text_of.
      change (tsv ["#CHR"; "SNP"; "BP"; "minLOG10(P)"; "log10(p)"; "r^2"])
        with DEFAULT_HEADER.
      apply output_lines, Forall_map, Forall_forall. intros [z v] _.
      now apply (output_row_plain repr_finite a z v).
    + apply Forall_forall. intros [z v] _.
      now apply (output_row_plain repr_finite a z v).
Qed.

Lemma output_format_witness :
  main sample_log10 sample_repr sample_args sample_files
  = Ok (sample_files_after, sample_stderr)
  /\ sample_files_after !! "out.plot"
     = Some (text_of
               [tsv ["#CHR"; "SNP"; "BP"; "minLOG10(P)"; "log10(p)"; "r^2"];
                tsv ["26"; "."; "12345"; "2.0"; "2.0"; "0"];
                tsv ["26"; "."; "77"; "inf"; "inf"; "0"]])
  /\ exists (recs : list (Z * spec_float)) (body : string),
       sample_files_after !! out sample_args
       = Some (text_of
                 (tsv ["#CHR"; "SNP"; "BP"; "minLOG10(P)"; "log10(p)"; "r^2"]
                  :: map (fun '(bp, v) =>
                            tsv [chr_index sample_args;
                                 snp_name sample_args; Py.str_int bp;
                                 Py.str_float sample_repr v;
                                 Py.str_float sample_repr v;
                                 r2 sample_args]) recs))
       /\ sample_files_after !! out sample_args = Some (body ++ Py.newline).
Proof.
  assert (Hrun : main sample_log10 sample_repr sample_args sample_files
                 = Ok (sample_files_after, sample_stderr))
    by (vm_compute; reflexivity).
  split; [exact Hrun|]. split; [reflexivity|].
  destruct (output_format sample_log10 sample_repr sample_args sample_files
              _ _ Hrun) as (recs & body & Hfile & Hbody & _).
  exists recs, body. split; [exact Hfile|exact Hbody].
Defined.

(** ** Positions *)

(** C6.  Each row written by a run that ends normally carries, as its
    BP field, the text of the integer found in the variant identifier
    at the configured field index when split by the configured
    delimiter, and that text reads back as the same integer; with the
    default delimiter and index, the variant [AE017143.1_12345_A_T]
    gives position 12345. *)
Theorem position_round_trip libm_log10 repr_finite :
  (forall a fs fs' err,
     main libm_log10 repr_finite a fs = Ok (fs', err) ->
     exists first data var_i p_i pcol_name,
       input_table a fs first data
       /\ columns_resolved a (Py.split_tab first) var_i p_i pcol_name
       /\ fs' !! out a
          = Some (render (DEFAULT_HEADER ::
                    written_rows libm_log10 repr_finite a var_i p_i pcol_name
                      data))
       /\ forall ln row c,
            In ln data ->
            row_outcome libm_log10 repr_finite a var_i p_i pcol_name ln
            = Written row c ->
            exists z v,
              parse_position a (variant_of var_i ln) = Some z
              /\ row = tsv [chr_index a; snp_name a; Py.str_int z;
                            Py.str_float repr_finite v;
                            Py.str_float repr_finite v; r2 a]
              /\ Py.int (Py.str_int z) = Some z)
  /\ (forall pyseer_path out_path,
        parse_position (default_args pyseer_path out_path)
          "AE017143.1_12345_A_T" = Some 12345%Z).
Proof.
  split; [|reflexivity].
  intros a fs fs' err Hrun.
  apply main_ok_rows in Hrun
    as (first & data & var_i & p_i & pcol_name & Ht & Hc & Hall & -> & _).
  exists first, data, var_i, p_i, pcol_name.
  split; [exact Ht|]. split; [exact Hc|].
  split; [apply lookup_insert_eq|].
  intros ln row c _ Ho.
  apply written_row_record in Ho as (bp & z & v & Hbp & Hint & ->).
  exists z, v. split; [|split].
  - unfold parse_position. rewrite Hbp. exact Hint.
  - reflexivity.
  - apply int_str_int.
Qed.

Lemma position_round_trip_witness :
  main sample_log10 sample_repr sample_args sample_files
  = Ok (sample_files_after, sample_stderr)
  /\ exists first data var_i p_i pcol_name,
       input_table sample_args sample_files first data
       /\ columns_resolved sample_args (Py.split_tab first)
            var_i p_i pcol_name
       /\ sample_files_after !! out sample_args
          = Some (render (DEFAULT_HEADER ::
                    written_rows sample_log10 sample_repr sample_args
                      var_i p_i pcol_name data))
       /\ forall ln row c,
            In ln data ->
            row_outcome sample_log10 sample_repr sample_args var_i p_i
              pcol_name ln = Written row c ->
            exists z v,
              parse_position sample_args (variant_of var_i ln) = Some z
              /\ row = tsv [chr_index sample_args; snp_name sample_args;
                            Py.str_int z; Py.str_float sample_repr v;
                            Py.str_float sample_repr v; r2 sample_args]
              /\ Py.int (Py.str_int z) = Some z.
Proof.
  assert (Hrun : main sample_log10 sample_repr sample_args sample_files
                 = Ok (sample_files_after, sample_stderr))
    by (vm_compute; reflexivity).
  split; [exact Hrun|].
  exact (proj1 (position_round_trip sample_log10 sample_repr)
           sample_args sample_files _ _ Hrun).
Defined.

(** C8, as stated, fails: a variant whose position field is a negative
    literal is written with a negative BP. *)
Lemma negative_position_written :
  parse_position sample_args "c_-5_A" = Some (-5)%Z
  /\ (-5 < 0)%Z
  /\ main sample_log10 sample_repr sample_args (files_with negative_table)
     = Ok (negative_files_after, one_row_stderr)
  /\ negative_files_after !! "out.plot"
     = Some (text_of [DEFAULT_HEADER;
                      tsv ["26"; "."; "-5"; "inf"; "inf"; "0"]]).
Proof. repeat split; vm_compute; reflexivity. Qed.

(** C8, amended.  Each row written by a run that ends normally carries,
    as its BP field, the text of the integer that [int] reads from the
    position field of the variant; that integer may be negative, and it
    is not when the field carries no minus sign. *)
Theorem position_is_integer libm_log10 repr_finite a fs fs' err :
  main libm_log10 repr_finite a fs = Ok (fs', err) ->
  exists first data var_i p_i pcol_name,
    input_table a fs first data
    /\ columns_resolved a (Py.split_tab first) var_i p_i pcol_name
    /\ fs' !! out a
       = Some (render (DEFAULT_HEADER ::
                 written_rows libm_log10 repr_finite a var_i p_i pcol_name
                   data))
    /\ forall ln row c,
         In ln data ->
         row_outcome libm_log10 repr_finite a var_i p_i pcol_name ln
         = Written row c ->
         exists bp z v,
           position_field a (variant_of var_i ln) = Some bp
           /\ Py.int bp = Some z
           /\ row = tsv [chr_index a; snp_name a; Py.str_int z;
                         Py.str_float repr_finite v;
                         Py.str_float repr_finite v; r2 a]
           /\ (has_minus_sign bp = false -> (0 <= z)%Z).
Proof.
  intros Hrun.
  apply main_ok_rows in Hrun
    as (first & data & var_i & p_i & pcol_name & Ht & Hc & Hall & -> & _).
  exists first, data, var_i, p_i, pcol_name.
  split; [exact Ht|]. split; [exact Hc|].
  split; [apply lookup_insert_eq|].
  intros ln row c _ Ho.
  apply written_row_record in Ho as (bp & z & v & Hbp & Hint & ->).
  exists bp, z, v. repeat split; auto.
  now apply int_nonneg.
Qed.

Lemma position_is_integer_witness :
  main sample_log10 sample_repr sample_args (files_with negative_table)
  = Ok (negative_files_after, one_row_stderr)
  /\ exists first data var_i p_i pcol_name,
       input_table sample_args (files_with negative_table) first data
       /\ columns_resolved sample_args (Py.split_tab first)
            var_i p_i pcol_name
       /\ negative_files_after !! out sample_args
          = Some (render (DEFAULT_HEADER ::
                    written_rows sample_log10 sample_repr sample_args
                      var_i p_i pcol_name data))
       /\ forall ln row c,
            In ln data ->
            row_outcome sample_log10 sample_repr sample_args var_i p_i
              pcol_name ln = Written row c ->
            exists bp z v,
              position_field sample_args (variant_of var_i ln) = Some bp
              /\ Py.int bp = Some z
              /\ row = tsv [chr_index sample_args; snp_name sample_args;
                            Py.str_int z; Py.str_float sample_repr v;
                            Py.str_float sample_repr v; r2 sample_args]
              /\ (has_minus_sign bp = false -> (0 <= z)%Z).
Proof.
  assert (Hrun : main sample_log10 sample_repr sample_args
                   (files_with negative_table)
                 = Ok (negative_files_after, one_row_stderr))
    by (vm_compute; reflexivity).
  split; [exact Hrun|].
  exact (position_is_integer sample_log10 sample_repr sample_args
           (files_with negative_table) _ _ Hrun).
Defined.

(** ** Warnings *)

Lemma tolerated_strict_only libm_log10 repr_finite a var_i p_i pcol_name data :
  skip_nonpositive_p a = true ->
  tolerated libm_log10 repr_finite a var_i p_i pcol_name data = 0.
Proof.
  intros Hskip. unfold tolerated.
  induction data as [|ln data IH]; [reflexivity|]. simpl.
  pose proof (row_outcome_spec libm_log10 repr_finite a var_i p_i pcol_name ln)
    as Hspec.
  destruct (row_outcome _ _ _ _ _ _ ln) as [why|row [|]|e]; simpl;
    try exact IH.
  destruct Hspec as (_ & bp & z & x & v & _ & _ & _ & _ & Hstrict & _).
  specialize (Hstrict eq_refl). congruence.
Qed.

(** C7, as stated, fails: in strict mode a row whose p-value is zero is
    written, not skipped, and still counted, so that a p-value warning
    is issued on a run that skipped no row. *)
Lemma p_warning_without_skipped_row :
  read_lines zero_p_table = [tsv ["variant"; "pvalue"]; tsv ["c_77_A"; "0"]]
  /\ main sample_log10 sample_repr sample_args (files_with zero_p_table)
     = Ok (zero_p_files_after, one_row_stderr)
  /\ In (WARN_p 1) one_row_stderr
  /\ skipped sample_log10 sample_repr sample_args 0 1 "pvalue" ShortRow
       [tsv ["c_77_A"; "0"]] = 0
  /\ skipped sample_log10 sample_repr sample_args 0 1 "pvalue" BadPosition
       [tsv ["c_77_A"; "0"]] = 0
  /\ skipped sample_log10 sample_repr sample_args 0 1 "pvalue" BadPValue
       [tsv ["c_77_A"; "0"]] = 0.
Proof.
  repeat split; first [vm_compute; reflexivity | simpl; auto].
Qed.

(** C7, amended.  On a run that ends normally the error stream is the
    summary line followed by a position warning exactly when some row
    was skipped for its position, with their number, and by a p-value
    warning exactly when some row was skipped for its p-value or, in
    strict mode, written with [inf] for a p-value not above zero, with
    the number of both; with [--skip-nonpositive-p] no row is written
    that way, so that a run that skipped no row then issues no
    warning. *)
Theorem warnings_count libm_log10 repr_finite a fs fs' err :
  main libm_log10 repr_finite a fs = Ok (fs', err) ->
  exists first data var_i p_i pcol_name,
    input_table a fs first data
    /\ columns_resolved a (Py.split_tab first) var_i p_i pcol_name
    /\ err
       = INFO (length (written_rows libm_log10 repr_finite a var_i p_i
                         pcol_name data))
           (out a) pcol_name (variant_col a)
         :: (if (skipped libm_log10 repr_finite a var_i p_i pcol_name
                   BadPosition data =? 0)%nat
             then []
             else [WARN_bp (skipped libm_log10 repr_finite a var_i p_i
                              pcol_name BadPosition data)])
         ++ (if (skipped libm_log10 repr_finite a var_i p_i pcol_name
                   BadPValue data
                 + tolerated libm_log10 repr_finite a var_i p_i pcol_name
                     data =? 0)%nat
             then []
             else [WARN_p (skipped libm_log10 repr_finite a var_i p_i
                             pcol_name BadPValue data
                           + tolerated libm_log10 repr_finite a var_i p_i
                               pcol_name data)])
    /\ (skip_nonpositive_p a = true ->
        tolerated libm_log10 repr_finite a var_i p_i pcol_name data = 0)
    /\ (forall ln row,
          In ln data ->
          row_outcome libm_log10 repr_finite a var_i p_i pcol_name ln
          = Written row true ->
          skip_nonpositive_p a = false
          /\ exists z x,
               Py.float (p_str_of p_i ln) = Some x
               /\ Py.float_le x Py.float_zero = true
               /\ row = tsv [chr_index a; snp_name a; Py.str_int z;
                             "inf"; "inf"; r2 a]).
Proof.
  intros Hrun.
  apply main_ok_rows in Hrun
    as (first & data & var_i & p_i & pcol_name & Ht & Hc & Hall & -> & ->).
  exists first, data, var_i, p_i, pcol_name.
  split; [exact Ht|]. split; [exact Hc|].
  split; [reflexivity|].
  split; [apply tolerated_strict_only|].
  intros ln row _ Ho.
  pose proof (row_outcome_spec libm_log10 repr_finite a var_i p_i pcol_name ln)
    as Hspec.
  rewrite Ho in Hspec.
  destruct Hspec
    as (_ & bp & z & x & v & _ & _ & Hx & Hle & Hstrict & -> & ->).
  split; [auto|]. exists z, x. auto.
Qed.

Lemma warnings_count_witness :
  main sample_log10 sample_repr sample_args sample_files
  = Ok (sample_files_after, sample_stderr)
  /\ exists first data var_i p_i pcol_name,
       input_table sample_args sample_files first data
       /\ columns_resolved sample_args (Py.split_tab first)
            var_i p_i pcol_name
       /\ sample_stderr
          = INFO (length (written_rows sample_log10 sample_repr sample_args
                            var_i p_i pcol_name data))
              (out sample_args) pcol_name (variant_col sample_args)
            :: (if (skipped sample_log10 sample_repr sample_args var_i p_i
                      pcol_name BadPosition data =? 0)%nat
                then []
                else [WARN_bp (skipped sample_log10 sample_repr sample_args
                                 var_i p_i pcol_name BadPosition data)])
            ++ (if (skipped sample_log10 sample_repr sample_args var_i p_i
                      pcol_name BadPValue data
                    + tolerated sample_log10 sample_repr sample_args
                        var_i p_i pcol_name data =? 0)%nat
                then []
                else [WARN_p (skipped sample_log10 sample_repr sample_args
                                var_i p_i pcol_name BadPValue data
                              + tolerated sample_log10 sample_repr
                                  sample_args var_i p_i pcol_name data)])
       /\ (skip_nonpositive_p sample_args = true ->
           tolerated sample_log10 sample_repr sample_args var_i p_i
             pcol_name data = 0)
       /\ (forall ln row,
             In ln data ->
             row_outcome sample_log10 sample_repr sample_args var_i p_i
               pcol_name ln = Written row true ->
             skip_nonpositive_p sample_args = false
             /\ exists z x,
                  Py.float (p_str_of p_i ln) = Some x
                  /\ Py.float_le x Py.float_zero = true
                  /\ row = tsv [chr_index sample_args;
                                snp_name sample_args; Py.str_int z;
                                "inf"; "inf"; r2 sample_args]).
Proof.
  assert (Hrun : main sample_log10 sample_repr sample_args sample_files
                 = Ok (sample_files_after, sample_stderr))
    by (vm_compute; reflexivity).
  split; [exact Hrun|].
  exact (warnings_count sample_log10 sample_repr sample_args sample_files
           _ _ Hrun).
Defined.

(** ** Column names *)

(** C9.  The variant column is looked up by its exact name: when no
    header name equals the configured name, letter case included, the
    run ends with the missing-variant-column error, status 1 and no
    file written, also when a header name differs from it in letter
    case only; whereas a header name that equals a candidate p-value
    name up to letter case is enough for the p-value column to be
    detected. *)
Theorem variant_col_case_sensitive libm_log10 repr_finite a fs first data :
  input_table a fs first data ->
  ~ In (variant_col a) (Py.split_tab first) ->
  (main libm_log10 repr_finite a fs
   = Raise (SystemExit
       (VariantColumnNotFound (variant_col a) (Py.split_tab first)))
   /\ status (run_script libm_log10 repr_finite a fs) = 1%Z
   /\ files (run_script libm_log10 repr_finite a fs) = fs)
  /\ (forall h c,
        In h (Py.split_tab first) -> In c candidates -> Py.lower h = c ->
        is_Some (detect_pcol (Py.split_tab first))).
Proof.
  intros (text & Hfile & Hlines) Hno.
  assert (Hrun : main libm_log10 repr_finite a fs
                 = Raise (SystemExit
                     (VariantColumnNotFound (variant_col a)
                        (Py.split_tab first)))).
  { unfold main. rewrite Hfile, Hlines. simpl.
    apply col_index_None in Hno. now rewrite Hno. }
  split.
  - split; [exact Hrun|].
    rewrite (run_script_raise _ _ _ _ _ Hrun). auto.
  - intros h c Hh Hc Hlow.
    destruct (first_candidate (Py.split_tab first)) as [c'|] eqn:Hfirst.
    + now apply detect_pcol_candidate in Hfirst as [_ Hsome].
    + unfold first_candidate in Hfirst.
      pose proof (find_none _ _ Hfirst c Hc) as Habsent.
      unfold candidate_present in Habsent.
      assert (Hpresent : existsb (fun h => String.eqb (Py.lower h) c)
                           (Py.split_tab first) = true).
      { apply existsb_exists. exists h. split; [exact Hh|].
        now apply String.eqb_eq. }
      congruence.
Qed.

Lemma variant_col_case_sensitive_witness :
  input_table sample_args (files_with capital_table)
    (tsv ["Variant"; "LRT-PVALUE"]) [tsv ["c_77_A"; "0.01"]]
  /\ Py.lower "Variant" = variant_col sample_args
  /\ main sample_log10 sample_repr sample_args (files_with capital_table)
     = Raise (SystemExit
         (VariantColumnNotFound "variant" ["Variant"; "LRT-PVALUE"]))
  /\ detect_pcol ["Variant"; "LRT-PVALUE"] = Some "LRT-PVALUE".
Proof.
  assert (Ht : input_table sample_args (files_with capital_table)
                 (tsv ["Variant"; "LRT-PVALUE"]) [tsv ["c_77_A"; "0.01"]]).
  { exists capital_table. split; vm_compute; reflexivity. }
  split; [exact Ht|]. split; [reflexivity|].
  split; [|reflexivity].
  refine (proj1 (proj1 (variant_col_case_sensitive sample_log10 sample_repr
                          sample_args (files_with capital_table) _ _ Ht _))).
  vm_compute. intros [H|[H|[]]]; discriminate.
Defined.

(** C4.  Without an explicit p-value column, the column that resolves
    is a header name that equals, once lower-cased, the first candidate
    of the list [lrt-pvalue], [pvalue], [p-value], [pval],
    [wald-pvalue], [score-pvalue], [filter-pvalue], in this order, that
    some header name matches in this way; when no candidate is matched,
    it is the first header name, in header order, that contains
    [pvalue] or equals [p] or [pval] once lower-cased; for the header
    [variant], [lrt-pvalue], [other] it is [lrt-pvalue].  The list and
    the test are written out in the statement, which also says that
    the column a run reports is the detected one. *)
Theorem detect_pcol_priority (header : list string) :
  (forall a, pcol a = None -> resolved_pcol a header = detect_pcol header)
  /\ (forall libm_log10 repr_finite a fs fs' err,
        pcol a = None ->
        main libm_log10 repr_finite a fs = Ok (fs', err) ->
        exists first data n h,
          input_table a fs first data
          /\ detect_pcol (Py.split_tab first) = Some h
          /\ In (INFO n (out a) h (variant_col a)) err)
  /\ (forall c,
        List.find
          (fun c => existsb (fun h => String.eqb (Py.lower h) c) header)
          ["lrt-pvalue"; "pvalue"; "p-value"; "pval"; "wald-pvalue";
           "score-pvalue"; "filter-pvalue"]
        = Some c ->
        exists h,
          detect_pcol header = Some h /\ In h header /\ Py.lower h = c)
  /\ (List.find
        (fun c => existsb (fun h => String.eqb (Py.lower h) c) header)
        ["lrt-pvalue"; "pvalue"; "p-value"; "pval"; "wald-pvalue";
         "score-pvalue"; "filter-pvalue"]
      = None ->
      detect_pcol header
      = List.find
          (fun h =>
             Py.contains "pvalue" (Py.lower h)
             || String.eqb (Py.lower h) "p"
             || String.eqb (Py.lower h) "pval")
          header
      /\ forall h,
           detect_pcol header = Some h ->
           first_such
             (fun h =>
                Py.contains "pvalue" (Py.lower h)
                || String.eqb (Py.lower h) "p"
                || String.eqb (Py.lower h) "pval")
             header h)
  /\ detect_pcol ["variant"; "lrt-pvalue"; "other"] = Some "lrt-pvalue"
  /\ detect_pcol ["filter-pvalue"; "score-pvalue"; "wald-pvalue"; "pval";
                  "p-value"; "pvalue"; "lrt-pvalue"] = Some "lrt-pvalue"
  /\ detect_pcol ["filter-pvalue"; "score-pvalue"; "wald-pvalue"; "pval";
                  "p-value"; "pvalue"] = Some "pvalue"
  /\ detect_pcol ["filter-pvalue"; "score-pvalue"; "wald-pvalue"; "pval";
                  "p-value"] = Some "p-value"
  /\ detect_pcol ["filter-pvalue"; "score-pvalue"; "wald-pvalue"; "pval"]
     = Some "pval"
  /\ detect_pcol ["filter-pvalue"; "score-pvalue"; "wald-pvalue"]
     = Some "wald-pvalue"
  /\ detect_pcol ["filter-pvalue"; "score-pvalue"] = Some "score-pvalue"
  /\ detect_pcol ["variant"; "Filter-Pvalue"] = Some "Filter-Pvalue"
  /\ detect_pcol ["variant"; "beta"; "my_PVALUE_adj"; "p"]
     = Some "my_PVALUE_adj"
  /\ detect_pcol ["variant"; "beta"; "P"; "xpvaluex"] = Some "P"
  /\ detect_pcol ["variant"; "beta"; "pv"; "p value"] = None.
Proof.
  split; [|split; [|split; [|split]]].
  - intros a Ha. unfold resolved_pcol. now rewrite Ha.
  - intros libm_log10 repr_finite a fs fs' err Ha Hrun.
    apply main_ok_inv in Hrun
      as (first & data & var_i & p_i & pcol_name & st
          & Ht & (_ & Hp & _) & _ & _ & ->).
    unfold resolved_pcol in Hp. rewrite Ha in Hp.
    exists first, data, (length (out_rows st) - 1), pcol_name.
    split; [exact Ht|]. split; [exact Hp|now left].
  - intros c Hc.
    change (first_candidate header = Some c) in Hc.
    destruct (detect_pcol_candidate header c Hc) as [Heq [h Hh]].
    exists h. split; [exact Hh|].
    rewrite Hh in Heq. symmetry in Heq.
    apply find_some in Heq as [Hin Hlow].
    split; [now apply in_rev|now apply String.eqb_eq].
  - intros Hnone.
    change (first_candidate header = None) in Hnone.
    pose proof (detect_pcol_fallback header Hnone) as Heq.
    change (detect_pcol header = List.find looks_like_pvalue header
            /\ forall h, detect_pcol header = Some h ->
                         first_such looks_like_pvalue header h).
    split; [exact Heq|].
    intros h Hh. rewrite Heq in Hh. now apply find_first_such.
  - repeat split; reflexivity.
Qed.

(** C10.  When several header names lower-case to the candidate that
    is matched first, the detected column is the last of them in header
    order; in the fallback stage it is the first header name that
    matches. *)
Theorem detect_pcol_duplicates (header : list string) :
  (forall c,
     first_candidate header = Some c ->
     exists h,
       detect_pcol header = Some h
       /\ last_such (fun h => String.eqb (Py.lower h) c) header h)
  /\ (first_candidate header = None ->
      forall h, detect_pcol header = Some h ->
                first_such looks_like_pvalue header h)
  /\ detect_pcol ["variant"; "Pvalue"; "PVALUE"] = Some "PVALUE"
  /\ detect_pcol ["variant"; "my_pvalue_a"; "MY_PVALUE_B"]
     = Some "my_pvalue_a".
Proof.
  split; [|split; [|split]].
  - intros c Hc.
    destruct (detect_pcol_candidate header c Hc) as [Heq [h Hh]].
    exists h. split; [exact Hh|].
    rewrite Hh in Heq. symmetry in Heq.
    now apply find_rev_last_such.
  - intros Hnone h Hh.
    rewrite (detect_pcol_fallback header Hnone) in Hh.
    now apply find_first_such.
  - reflexivity.
  - reflexivity.
Qed.

Lemma detect_pcol_priority_witness :
  (List.find
     (fun c =>
        existsb (fun h => String.eqb (Py.lower h) c)
          ["variant"; "PVAL"; "LRT-Pvalue"])
     ["lrt-pvalue"; "pvalue"; "p-value"; "pval"; "wald-pvalue";
      "score-pvalue"; "filter-pvalue"]
   = Some "lrt-pvalue"
   /\ exists h,
        detect_pcol ["variant"; "PVAL"; "LRT-Pvalue"] = Some h
        /\ In h ["variant"; "PVAL"; "LRT-Pvalue"]
        /\ Py.lower h = "lrt-pvalue")
  /\ (List.find
        (fun c =>
           existsb (fun h => String.eqb (Py.lower h) c)
             ["variant"; "my_pvalue"; "p"])
        ["lrt-pvalue"; "pvalue"; "p-value"; "pval"; "wald-pvalue";
         "score-pvalue"; "filter-pvalue"]
      = None
      /\ detect_pcol ["variant"; "my_pvalue"; "p"]
         = List.find
             (fun h =>
                Py.contains "pvalue" (Py.lower h)
                || String.eqb (Py.lower h) "p"
                || String.eqb (Py.lower h) "pval")
             ["variant"; "my_pvalue"; "p"]
      /\ detect_pcol ["variant"; "my_pvalue"; "p"] = Some "my_pvalue").
Proof.
  split.
  - split; [reflexivity|].
    exact (proj1 (proj2 (proj2
             (detect_pcol_priority ["variant"; "PVAL"; "LRT-Pvalue"])))
             "lrt-pvalue" eq_refl).
  - split; [reflexivity|]. split; [|reflexivity].
    exact (proj1 (proj1 (proj2 (proj2 (proj2
             (detect_pcol_priority ["variant"; "my_pvalue"; "p"]))))
             eq_refl)).
Defined.

Lemma detect_pcol_duplicates_witness :
  first_candidate ["pvalue"; "variant"; "Pvalue"; "PVALUE"; "x"]
  = Some "pvalue"
  /\ exists h,
       detect_pcol ["pvalue"; "variant"; "Pvalue"; "PVALUE"; "x"] = Some h
       /\ last_such (fun h => String.eqb (Py.lower h) "pvalue")
            ["pvalue"; "variant"; "Pvalue"; "PVALUE"; "x"] h.
Proof.
  split; [reflexivity|].
  exact (proj1 (detect_pcol_duplicates
                  ["pvalue"; "variant"; "Pvalue"; "PVALUE"; "x"])
           "pvalue" eq_refl).
Defined.

(** * Further properties of the script *)

(** ** The transform *)

(** X1.  [safe_neglog10] never raises: its guard covers every argument
    on which [math.log10] has a domain error.  It returns positive
    infinity on an argument not above zero and the negated logarithm
    on any other. *)
Theorem safe_neglog10_never_raises libm_log10 p :
  exists v,
    safe_neglog10 libm_log10 p = Ok v
    /\ (Py.float_le p Py.float_zero = true -> v = Py.float_inf)
    /\ (Py.float_le p Py.float_zero = false ->
        exists y, Py.math_log10 libm_log10 p = Some y /\ v = Py.float_neg y)
    /\ (Py.math_log10 libm_log10 p = None ->
        Py.float_le p Py.float_zero = true).
Proof.
  unfold safe_neglog10.
  destruct p as [[]|[]| |[] m e]; simpl; eexists;
    (split; [reflexivity|]); repeat split; intros; eauto; discriminate.
Qed.

(** The body of the loop on a row that reaches the p-value stage. *)
Lemma loop_body_p_stage libm_log10 repr_finite a var_i p_i pcol_name ln z st :
  reaches_p_stage a var_i p_i ln z ->
  loop_body libm_log10 repr_finite a var_i p_i pcol_name ln st
  = match Py.float (p_str_of p_i ln) with
    | None =>
        if skip_nonpositive_p a then Continue BadPValue (bump_bad_p st)
        else Raises (SystemExit
               (PNotNumeric (p_str_of p_i ln) pcol_name (variant_of var_i ln)))
    | Some p_val =>
        if Py.float_le p_val Py.float_zero
        then if skip_nonpositive_p a
             then Continue BadPValue (bump_bad_p st)
             else Append
                    (append_row (output_row repr_finite a z Py.float_inf)
                       (bump_bad_p st))
        else match safe_neglog10 libm_log10 p_val with
             | Raise e => Raises e
             | Ok neglog =>
                 Append (append_row (output_row repr_finite a z neglog) st)
             end
    end.
Proof.
  intros [Hlong Hpos]. unfold loop_body.
  unfold long_enough in Hlong.
  destruct (length (Py.split_tab ln) <=? max var_i p_i)%nat eqn:Hlen;
    [apply Nat.leb_le in Hlen; lia|].
  unfold parse_position, position_field, variant_of in Hpos.
  destruct (Py.split _ (variant_delim a)) as [fields|]; [|discriminate].
  simpl in Hpos.
  destruct (Py.index fields _) as [bp|]; [|discriminate].
  simpl in Hpos. rewrite Hpos. reflexivity.
Qed.

(** X2.  A row that reaches the p-value stage with a p-value that is
    not at or below zero is written with the text of the negated
    base-10 logarithm, twice, and is not counted, whatever the
    switches.  This includes the values that are no probabilities: a
    NaN is written as [nan] and positive infinity as [-inf]. *)
Theorem positive_p_value_row libm_log10 repr_finite a var_i p_i pcol_name
    ln z x st :
  reaches_p_stage a var_i p_i ln z ->
  Py.float (p_str_of p_i ln) = Some x ->
  Py.float_le x Py.float_zero = false ->
  exists y,
    Py.math_log10 libm_log10 x = Some y
    /\ loop_body libm_log10 repr_finite a var_i p_i pcol_name ln st
       = Append
           (append_row
              (tsv [chr_index a; snp_name a; Py.str_int z;
                    Py.str_float repr_finite (Py.float_neg y);
                    Py.str_float repr_finite (Py.float_neg y); r2 a])
              st)
    /\ (x = S754_nan ->
        Py.str_float repr_finite (Py.float_neg y) = "nan")
    /\ (x = S754_infinity false ->
        Py.str_float repr_finite (Py.float_neg y) = "-inf")
    /\ (forall m e, x = S754_finite false m e -> y = libm_log10 x).
Proof.
  intros Hreach Hx Hle.
  destruct (safe_neglog10_total libm_log10 x) as [v Hv].
  pose proof Hv as Hv'. unfold safe_neglog10 in Hv'. rewrite Hle in Hv'.
  destruct (Py.math_log10 libm_log10 x) as [y|] eqn:Hy; [|discriminate].
  injection Hv' as <-.
  exists y. split; [reflexivity|]. split.
  - rewrite (loop_body_p_stage _ _ _ _ _ _ _ _ _ Hreach), Hx, Hle, Hv.
    reflexivity.
  - repeat split.
    + intros ->. simpl in Hy. injection Hy as <-. reflexivity.
    + intros ->. simpl in Hy. injection Hy as <-. reflexivity.
    + intros m e ->. simpl in Hy. now injection Hy as <-.
Qed.

Lemma positive_p_value_row_witness :
  reaches_p_stage sample_args 0 1 (tsv ["c_77_A"; "NaN"]) 77
  /\ Py.float (p_str_of 1 (tsv ["c_77_A"; "NaN"])) = Some S754_nan
  /\ exists y,
       Py.math_log10 sample_log10 S754_nan = Some y
       /\ loop_body sample_log10 sample_repr sample_args 0 1 "pvalue"
            (tsv ["c_77_A"; "NaN"]) initial_state
          = Append
              (append_row
                 (tsv [chr_index sample_args; snp_name sample_args;
                       Py.str_int 77;
                       Py.str_float sample_repr (Py.float_neg y);
                       Py.str_float sample_repr (Py.float_neg y);
                       r2 sample_args])
                 initial_state)
       /\ (S754_nan = S754_nan ->
           Py.str_float sample_repr (Py.float_neg y) = "nan")
       /\ (S754_nan = S754_infinity false ->
           Py.str_float sample_repr (Py.float_neg y) = "-inf")
       /\ (forall m e, S754_nan = S754_finite false m e ->
                       y = sample_log10 S754_nan).
Proof.
  assert (H : reaches_p_stage sample_args 0 1 (tsv ["c_77_A"; "NaN"]) 77).
  { split; [vm_compute; lia|vm_compute; reflexivity]. }
  assert (Hx : Py.float (p_str_of 1 (tsv ["c_77_A"; "NaN"])) = Some S754_nan)
    by (vm_compute; reflexivity).
  split; [exact H|]. split; [exact Hx|].
  exact (positive_p_value_row sample_log10 sample_repr sample_args 0 1
           "pvalue" (tsv ["c_77_A"; "NaN"]) 77 S754_nan initial_state
           H Hx eq_refl).
Defined.

(** ** Failing rows *)

Section RowFailures.

Variable libm_log10 : spec_float -> spec_float.
Variable repr_finite : spec_float -> string.
Variable a : args.
Variables var_i p_i : nat.
Variable pcol_name : string.

Local Abbreviation loop := (for_loop libm_log10 repr_finite a var_i p_i pcol_name).
Local Abbreviation outcome_of := (row_outcome libm_log10 repr_finite a var_i p_i pcol_name).
Local Abbreviation rows_of := (written_rows libm_log10 repr_finite a var_i p_i pcol_name).
Local Abbreviation final := (final_state libm_log10 repr_finite a var_i p_i pcol_name).
Local Abbreviation skipped_by := (skipped libm_log10 repr_finite a var_i p_i pcol_name).
Local Abbreviation tolerated_in := (tolerated libm_log10 repr_finite a var_i p_i pcol_name).

(** The exceptions that a row can raise, each with its cause. *)
Lemma row_failure_kinds ln e :
  outcome_of ln = Failed e ->
  long_enough var_i p_i ln
  /\ ((variant_delim a = "" /\ e = ValueError "empty separator")
      \/ (variant_delim a <> "" /\ allow_missing_bp a = false
          /\ position_field a (variant_of var_i ln) = None
          /\ e = SystemExit
                   (MissingBPField (variant_of var_i ln) (bp_field_index a)
                      (variant_delim a)))
      \/ (allow_missing_bp a = false
          /\ exists bp,
               position_field a (variant_of var_i ln) = Some bp
               /\ Py.int bp = None
               /\ e = SystemExit (BPNotInteger bp (variant_of var_i ln)))
      \/ (skip_nonpositive_p a = false
          /\ is_Some (parse_position a (variant_of var_i ln))
          /\ Py.float (p_str_of p_i ln) = None
          /\ e = SystemExit
                   (PNotNumeric (p_str_of p_i ln) pcol_name
                      (variant_of var_i ln)))).
Proof.
  unfold row_outcome, loop_body, long_enough, parse_position, position_field,
    variant_of, p_str_of.
  destruct (length (Py.split_tab ln) <=? max var_i p_i)%nat eqn:Hlen;
    [discriminate|].
  apply Nat.leb_gt in Hlen.
  destruct (Py.split _ (variant_delim a)) as [fields|] eqn:Hsplit; simpl.
  2:{ intros [= <-]. split; [exact Hlen|]. left. split; [|reflexivity].
      unfold Py.split in Hsplit.
      destruct (variant_delim a); [reflexivity|discriminate]. }
  assert (Hdelim : variant_delim a <> "").
  { intros Heq. rewrite Heq in Hsplit. discriminate. }
  destruct (Py.index fields _) as [bp|] eqn:Hidx; simpl.
  2:{ destruct (allow_missing_bp a) eqn:Hallow; [discriminate|].
      intros [= <-]. split; [exact Hlen|]. right. left. auto. }
  destruct (Py.int bp) as [z|] eqn:Hint; simpl.
  2:{ destruct (allow_missing_bp a) eqn:Hallow; [discriminate|].
      intros [= <-]. split; [exact Hlen|]. right. right. left.
      split; [reflexivity|]. exists bp. auto. }
  destruct (Py.float _) as [x|] eqn:Hfloat.
  2:{ destruct (skip_nonpositive_p a) eqn:Hskip; [discriminate|].
      intros [= <-]. split; [exact Hlen|]. right. right. right.
      split; [reflexivity|]. split; [eauto|]. auto. }
  destruct (Py.float_le x Py.float_zero).
  - destruct (skip_nonpositive_p a); discriminate.
  - destruct (safe_neglog10_total libm_log10 x) as [v ->]. discriminate.
Qed.

(** The loop ends with the exception of the first failing row. *)
Lemma for_loop_raise_first pre ln post e st :
  Forall (fun l => is_failed (outcome_of l) = false) pre ->
  outcome_of ln = Failed e ->
  loop (pre ++ ln :: post)%list st = Raise e.
Proof.
  intros Hpre Hln. revert st.
  induction Hpre as [|l pre Hl _ IH]; intros st.
  - simpl app. rewrite loop_cons, Hln. reflexivity.
  - simpl app. rewrite loop_cons.
    destruct (outcome_of l) as [[]|row []|e']; simpl in *;
      try discriminate; apply IH.
Qed.

Lemma for_loop_raise_inv data : forall e st,
  loop data st = Raise e ->
  exists pre ln post,
    data = (pre ++ ln :: post)%list
    /\ Forall (fun l => is_failed (outcome_of l) = false) pre
    /\ outcome_of ln = Failed e.
Proof.
  induction data as [|l data IH]; intros e st Hrun; [discriminate|].
  rewrite loop_cons in Hrun.
  destruct (outcome_of l) as [why|row c|e'] eqn:Hl.
  - assert (Hrest : exists st', loop data st' = Raise e)
      by (destruct why; simpl in Hrun; eauto).
    destruct Hrest as [st' Hrest].
    destruct (IH _ _ Hrest) as (pre & ln & post & -> & Hpre & Hln).
    exists (l :: pre), ln, post. repeat split; auto.
    constructor; [now rewrite Hl|exact Hpre].
  - assert (Hrest : exists st', loop data st' = Raise e)
      by (destruct c; simpl in Hrun; eauto).
    destruct Hrest as [st' Hrest].
    destruct (IH _ _ Hrest) as (pre & ln & post & -> & Hpre & Hln).
    exists (l :: pre), ln, post. repeat split; auto.
    constructor; [now rewrite Hl|exact Hpre].
  - simpl in Hrun. injection Hrun as <-.
    exists [], l, data. repeat split; auto.
Qed.

(** X3.  The row loop fails fast: it raises [e] exactly when some row
    raises [e] and no row before it fails; the rows after it are not
    looked at. *)
Theorem loop_raises_first_failure data e st :
  for_loop libm_log10 repr_finite a var_i p_i pcol_name data st = Raise e <->
  exists pre ln post,
    data = (pre ++ ln :: post)%list
    /\ Forall (fun l =>
          is_failed (row_outcome libm_log10 repr_finite a var_i p_i
                       pcol_name l) = false) pre
    /\ row_outcome libm_log10 repr_finite a var_i p_i pcol_name ln
       = Failed e.
Proof.
  split.
  - apply for_loop_raise_inv.
  - intros (pre & ln & post & -> & Hpre & Hln).
    now apply for_loop_raise_first.
Qed.

Lemma for_loop_app_eq d1 : forall d2 st,
  loop (d1 ++ d2)%list st
  = match loop d1 st with
    | Ok st1 => loop d2 st1
    | Raise e => Raise e
    end.
Proof.
  induction d1 as [|l d1 IH]; intros d2 st; [reflexivity|].
  simpl app. rewrite !loop_cons.
  destruct (replay (outcome_of l) st); auto.
Qed.

(** X4.  Rows are processed one by one and in order, with no state
    carried between them but the accumulated output and counters:
    looping over two tables in a row is looping over the first and
    then, from the state reached, over the second; the rows written
    for the whole are those of the first followed by those of the
    second, and the counters add up. *)
Theorem loop_over_concatenation d1 d2 st :
  for_loop libm_log10 repr_finite a var_i p_i pcol_name (d1 ++ d2)%list st
  = match for_loop libm_log10 repr_finite a var_i p_i pcol_name d1 st with
    | Ok st1 => for_loop libm_log10 repr_finite a var_i p_i pcol_name d2 st1
    | Raise e => Raise e
    end
  /\ written_rows libm_log10 repr_finite a var_i p_i pcol_name
       (d1 ++ d2)%list
     = (written_rows libm_log10 repr_finite a var_i p_i pcol_name d1
        ++ written_rows libm_log10 repr_finite a var_i p_i pcol_name d2)%list
  /\ (forall st2,
        for_loop libm_log10 repr_finite a var_i p_i pcol_name
          (d1 ++ d2)%list st = Ok st2 ->
        out_rows st2
        = (out_rows st
           ++ written_rows libm_log10 repr_finite a var_i p_i pcol_name d1
           ++ written_rows libm_log10 repr_finite a var_i p_i pcol_name d2)%list
        /\ bad_bp st2
           = bad_bp st
             + skipped libm_log10 repr_finite a var_i p_i pcol_name
                 BadPosition d1
             + skipped libm_log10 repr_finite a var_i p_i pcol_name
                 BadPosition d2
        /\ bad_p st2
           = bad_p st
             + (skipped libm_log10 repr_finite a var_i p_i pcol_name
                  BadPValue d1
                + tolerated libm_log10 repr_finite a var_i p_i pcol_name d1)
             + (skipped libm_log10 repr_finite a var_i p_i pcol_name
                  BadPValue d2
                + tolerated libm_log10 repr_finite a var_i p_i pcol_name d2)).
Proof.
  assert (Hrows : rows_of (d1 ++ d2)%list = (rows_of d1 ++ rows_of d2)%list)
    by (unfold written_rows; apply flat_map_app).
  split; [apply for_loop_app_eq|]. split; [exact Hrows|].
  intros st2 Hrun.
  rewrite for_loop_app_eq in Hrun.
  destruct (loop d1 st) as [st1|] eqn:H1; [|discriminate].
  apply for_loop_ok_inv in H1 as [_ ->].
  apply for_loop_ok_inv in Hrun as [_ ->].
  unfold final_state. simpl. rewrite <- app_assoc.
  repeat split; lia.
Qed.

End RowFailures.

(** ** Runs *)

(** X5.  With both leniency switches set and a delimiter that is not
    empty, no row can end the run: once the table is read and both
    columns are resolved, the run ends normally with status 0. *)
Theorem lenient_run_succeeds libm_log10 repr_finite a fs first data
    var_i p_i pcol_name :
  allow_missing_bp a = true ->
  skip_nonpositive_p a = true ->
  variant_delim a <> "" ->
  input_table a fs first data ->
  columns_resolved a (Py.split_tab first) var_i p_i pcol_name ->
  main libm_log10 repr_finite a fs
  = Ok (<[out a :=
           render (DEFAULT_HEADER ::
             written_rows libm_log10 repr_finite a var_i p_i pcol_name data)]>
          fs,
        INFO (length (written_rows libm_log10 repr_finite a var_i p_i
                        pcol_name data))
          (out a) pcol_name (variant_col a)
        :: warnings (final_state libm_log10 repr_finite a var_i p_i pcol_name
                       data initial_state))
  /\ status (run_script libm_log10 repr_finite a fs) = 0%Z.
Proof.
  intros Hallow Hskip Hdelim Ht Hc.
  assert (Hall : Forall (fun ln =>
            is_failed (row_outcome libm_log10 repr_finite a var_i p_i
                         pcol_name ln) = false) data).
  { apply Forall_forall. intros ln _.
    destruct (row_outcome _ _ _ _ _ _ ln) as [why|row c|e] eqn:Ho;
      try reflexivity.
    apply row_failure_kinds in Ho
      as (_ & [[? _]|[(_ & ? & _)|[[? _]|[? _]]]]); congruence. }
  assert (Hrun : main libm_log10 repr_finite a fs = Ok
     (<[out a :=
           render (DEFAULT_HEADER ::
             written_rows libm_log10 repr_finite a var_i p_i pcol_name data)]>
          fs,
        INFO (length (written_rows libm_log10 repr_finite a var_i p_i
                        pcol_name data))
          (out a) pcol_name (variant_col a)
        :: warnings (final_state libm_log10 repr_finite a var_i p_i pcol_name
                       data initial_state))).
  { rewrite (main_resolved _ _ _ _ _ _ _ _ _ Ht Hc).
    rewrite (for_loop_ok _ _ _ _ _ _ _ _ Hall).
    simpl. now rewrite Nat.sub_0_r. }
  split; [exact Hrun|].
  now rewrite (run_script_ok _ _ _ _ _ _ Hrun).
Qed.

Lemma lenient_run_succeeds_witness :
  input_table lenient_args (files_with bad_p_table)
    (tsv ["variant"; "pvalue"]) [tsv ["c_77_A"; "0"]; tsv ["c_78_A"; "NA"]]
  /\ columns_resolved lenient_args (Py.split_tab (tsv ["variant"; "pvalue"]))
       0 1 "pvalue"
  /\ status (run_script sample_log10 sample_repr lenient_args
               (files_with bad_p_table)) = 0%Z.
Proof.
  assert (Ht : input_table lenient_args (files_with bad_p_table)
                 (tsv ["variant"; "pvalue"])
                 [tsv ["c_77_A"; "0"]; tsv ["c_78_A"; "NA"]]).
  { exists bad_p_table. split; vm_compute; reflexivity. }
  assert (Hc : columns_resolved lenient_args
                 (Py.split_tab (tsv ["variant"; "pvalue"])) 0 1 "pvalue").
  { repeat split; vm_compute; reflexivity. }
  split; [exact Ht|]. split; [exact Hc|].
  refine (proj2 (lenient_run_succeeds sample_log10 sample_repr lenient_args
                   (files_with bad_p_table) _ _ 0 1 "pvalue"
                   eq_refl eq_refl _ Ht Hc)).
  discriminate.
Defined.

(** X6.  With an empty delimiter the first row that has enough fields
    ends the run with the uncaught [ValueError] of [str.split], also
    when both leniency switches are set; a run whose rows are all too
    short ends normally and writes the header alone. *)
Theorem empty_delimiter_raises libm_log10 repr_finite a fs first data
    var_i p_i pcol_name :
  variant_delim a = "" ->
  input_table a fs first data ->
  columns_resolved a (Py.split_tab first) var_i p_i pcol_name ->
  (Exists (long_enough var_i p_i) data ->
   main libm_log10 repr_finite a fs = Raise (ValueError "empty separator")
   /\ status (run_script libm_log10 repr_finite a fs) = 1%Z
   /\ files (run_script libm_log10 repr_finite a fs) = fs)
  /\ (Forall (fun ln => ~ long_enough var_i p_i ln) data ->
      main libm_log10 repr_finite a fs
      = Ok (<[out a := render [DEFAULT_HEADER]]> fs,
            [INFO 0 (out a) pcol_name (variant_col a)])).
Proof.
  intros Hdelim Ht Hc.
  assert (Hrow : forall ln,
    row_outcome libm_log10 repr_finite a var_i p_i pcol_name ln
    = if (length (Py.split_tab ln) <=? max var_i p_i)%nat
      then Skipped ShortRow else Failed (ValueError "empty separator")).
  { intros ln. unfold row_outcome, loop_body.
    destruct (length (Py.split_tab ln) <=? max var_i p_i)%nat;
      [reflexivity|].
    rewrite Hdelim. reflexivity. }
  rewrite (main_resolved _ _ _ _ _ _ _ _ _ Ht Hc).
  split.
  - intros Hex.
    enough (Hloop : forall st,
              for_loop libm_log10 repr_finite a var_i p_i pcol_name data st
              = Raise (ValueError "empty separator")).
    { assert (Hrun : main libm_log10 repr_finite a fs
                     = Raise (ValueError "empty separator"))
        by (rewrite (main_resolved _ _ _ _ _ _ _ _ _ Ht Hc), Hloop;
            reflexivity).
      rewrite Hloop. split; [reflexivity|].
      now rewrite (run_script_raise _ _ _ _ _ Hrun). }
    clear Ht. induction Hex as [ln rest Hln|ln rest _ IH]; intros st;
      rewrite loop_cons, Hrow; unfold long_enough in *.
    + destruct (length (Py.split_tab ln) <=? max var_i p_i)%nat eqn:Hlen;
        [apply Nat.leb_le in Hlen; lia|reflexivity].
    + destruct (length (Py.split_tab ln) <=? max var_i p_i)%nat;
        [apply IH|reflexivity].
  - intros Hall.
    rewrite (for_loop_ok libm_log10 repr_finite a var_i p_i pcol_name data).
    2:{ apply List.Forall_forall. intros ln Hin.
        rewrite List.Forall_forall in Hall. specialize (Hall ln Hin).
        rewrite Hrow. unfold long_enough in Hall.
        destruct (length (Py.split_tab ln) <=? max var_i p_i)%nat eqn:Hlen;
          [reflexivity|apply Nat.leb_gt in Hlen; lia]. }
    assert (Hfinal : final_state libm_log10 repr_finite a var_i p_i pcol_name
                       data initial_state = initial_state).
    { clear Ht. unfold final_state, skipped, tolerated, written_rows.
      induction Hall as [|ln rest Hln _ IH]; [reflexivity|].
      simpl. rewrite Hrow. unfold long_enough in Hln.
      destruct (length (Py.split_tab ln) <=? max var_i p_i)%nat eqn:Hlen;
        [|apply Nat.leb_gt in Hlen; lia].
      exact IH. }
    rewrite Hfinal. reflexivity.
Qed.

Lemma empty_delimiter_raises_witness :
  input_table empty_delim_args (files_with zero_p_table)
    (tsv ["variant"; "pvalue"]) [tsv ["c_77_A"; "0"]]
  /\ main sample_log10 sample_repr empty_delim_args (files_with zero_p_table)
     = Raise (ValueError "empty separator").
Proof.
  assert (Ht : input_table empty_delim_args (files_with zero_p_table)
                 (tsv ["variant"; "pvalue"]) [tsv ["c_77_A"; "0"]]).
  { exists zero_p_table. split; vm_compute; reflexivity. }
  assert (Hc : columns_resolved empty_delim_args
                 (Py.split_tab (tsv ["variant"; "pvalue"])) 0 1 "pvalue").
  { repeat split; vm_compute; reflexivity. }
  split; [exact Ht|].
  refine (proj1 (proj1 (empty_delimiter_raises sample_log10 sample_repr
                          empty_delim_args (files_with zero_p_table) _ _
                          0 1 "pvalue" eq_refl Ht Hc) _)).
  left. vm_compute. lia.
Defined.

(** ** The column index *)

Lemma enumerate_snoc {A} (l : list A) x :
  enumerate (l ++ [x])%list = (enumerate l ++ [(length l, x)])%list.
Proof.
  unfold enumerate. rewrite length_app. simpl length.
  rewrite Nat.add_1_r, seq_S. simpl.
  rewrite zip_with_app by now rewrite length_seq.
  reflexivity.
Qed.

Lemma col_index_snoc header x :
  col_index (header ++ [x])%list = <[x := length header]> (col_index header).
Proof.
  unfold col_index. rewrite enumerate_snoc, foldl_app. reflexivity.
Qed.

(** X7.  The column index maps a name to the position of its last
    occurrence in the header: when a column name is repeated the
    rightmost column is the one used, and the index is always a
    position of the header. *)
Theorem col_index_last_occurrence (header : list string) name i :
  col_index header !! name = Some i <->
  header !! i = Some name
  /\ forall j, i < j -> header !! j <> Some name.
Proof.
  revert i. induction header as [|x header IH] using rev_ind; intros i.
  - unfold col_index, enumerate. simpl. rewrite lookup_empty.
    split; [discriminate|]. intros [H _]. discriminate.
  - rewrite col_index_snoc, lookup_insert.
    destruct (decide (x = name)) as [->|Hne].
    + split.
      * intros [= <-]. split.
        -- apply lookup_snoc_Some. now right.
        -- intros j Hj Hsome. apply lookup_lt_Some in Hsome.
           rewrite length_app in Hsome. simpl in Hsome. lia.
      * intros [Hi Hlast].
        apply lookup_snoc_Some in Hi as [[Hlt _]|[-> _]]; [|reflexivity].
        exfalso. apply (Hlast (length header) Hlt).
        apply lookup_snoc_Some. now right.
    + rewrite IH. split.
      * intros [Hi Hlast]. split.
        -- apply lookup_snoc_Some. left. split; [|exact Hi].
           now apply lookup_lt_Some in Hi.
        -- intros j Hj Hsome.
           apply lookup_snoc_Some in Hsome as [[_ Hsome]|[_ Heq]];
             [now apply (Hlast j)|congruence].
      * intros [Hi Hlast].
        apply lookup_snoc_Some in Hi as [[Hlt Hi]|[_ Heq]]; [|congruence].
        split; [exact Hi|].
        intros j Hj Hsome. apply (Hlast j Hj).
        apply lookup_snoc_Some. left. split; [|exact Hsome].
        now apply lookup_lt_Some in Hsome.
Qed.

Lemma col_index_Some_In header name i :
  col_index header !! name = Some i -> In name header.
Proof.
  intros H. destruct (in_dec string_dec name header) as [Hin|Hno];
    [exact Hin|].
  apply col_index_None in Hno. congruence.
Qed.

Lemma col_index_In_Some header name :
  In name header -> is_Some (col_index header !! name).
Proof.
  intros Hin. destruct (col_index header !! name) as [i|] eqn:H; [eauto|].
  apply col_index_None in H. contradiction.
Qed.

(** ** Detection of the p-value column *)

Lemma candidate_looks_like_pvalue c :
  In c candidates -> c <> "p-value" ->
  Py.contains "pvalue" c || String.eqb c "p" || String.eqb c "pval" = true.
Proof.
  unfold candidates. simpl.
  intros [<-|[<-|[<-|[<-|[<-|[<-|[<-|[]]]]]]]] Hne;
    try reflexivity; congruence.
Qed.

(** X8.  A detected p-value column is a name of the header, so that it
    always has an index: after detection the run cannot fail for a
    p-value column absent from the header.  Lower-cased, the detected
    name is a candidate or passes the fallback test. *)
Theorem detect_pcol_in_header (header : list string) h :
  detect_pcol header = Some h ->
  In h header
  /\ is_Some (col_index header !! h)
  /\ (In (Py.lower h) candidates \/ looks_like_pvalue h = true).
Proof.
  intros Hdet.
  assert (Hin : In h header
                /\ (In (Py.lower h) candidates \/ looks_like_pvalue h = true)).
  { destruct (first_candidate header) as [c|] eqn:Hc.
    - pose proof Hc as Hc'. unfold first_candidate in Hc'.
      apply find_some in Hc' as [Hcand _].
      destruct (detect_pcol_candidate header c Hc) as [Heq _].
      rewrite Hdet in Heq. symmetry in Heq.
      apply find_some in Heq as [Hh Hlow].
      apply String.eqb_eq in Hlow. subst c.
      split; [now apply in_rev|now left].
    - rewrite (detect_pcol_fallback header Hc) in Hdet.
      apply find_some in Hdet as [Hh Hlooks]. auto. }
  destruct Hin as [Hin Hkind].
  split; [exact Hin|]. split; [now apply col_index_In_Some|exact Hkind].
Qed.

Lemma detect_pcol_in_header_witness :
  detect_pcol ["variant"; "af"; "Wald-Pvalue"] = Some "Wald-Pvalue"
  /\ In "Wald-Pvalue" ["variant"; "af"; "Wald-Pvalue"]
  /\ is_Some (col_index ["variant"; "af"; "Wald-Pvalue"] !! "Wald-Pvalue")
  /\ (In (Py.lower "Wald-Pvalue") candidates
      \/ looks_like_pvalue "Wald-Pvalue" = true).
Proof.
  split; [reflexivity|].
  exact (detect_pcol_in_header ["variant"; "af"; "Wald-Pvalue"] "Wald-Pvalue"
           eq_refl).
Defined.

(** X9.  Detection finds nothing exactly when no header name,
    lower-cased, is [p-value], is [p] or [pval], or contains
    [pvalue]. *)
Theorem detect_pcol_none_iff (header : list string) :
  detect_pcol header = None <->
  forall h, In h header ->
    Py.lower h <> "p-value"
    /\ Py.lower h <> "p" /\ Py.lower h <> "pval"
    /\ Py.contains "pvalue" (Py.lower h) = false.
Proof.
  assert (Hlooks : forall h,
    looks_like_pvalue h = false <->
    Py.lower h <> "p" /\ Py.lower h <> "pval"
    /\ Py.contains "pvalue" (Py.lower h) = false).
  { intros h. unfold looks_like_pvalue.
    rewrite !orb_false_iff, !String.eqb_neq. tauto. }
  split.
  - intros Hnone h Hh.
    destruct (first_candidate header) as [c|] eqn:Hc.
    { destruct (detect_pcol_candidate header c Hc) as [_ [x Hx]].
      congruence. }
    rewrite (detect_pcol_fallback header Hc) in Hnone.
    split.
    + intros Hlow. unfold first_candidate in Hc.
      assert (Hcand : In "p-value" candidates)
        by (unfold candidates; simpl; tauto).
      pose proof (find_none _ _ Hc _ Hcand) as Habs.
      unfold candidate_present in Habs.
      assert (existsb (fun h => String.eqb (Py.lower h) "p-value") header
              = true).
      { apply existsb_exists. exists h. split; [exact Hh|].
        now apply String.eqb_eq. }
      congruence.
    + apply Hlooks. exact (find_none _ _ Hnone _ Hh).
  - intros Hall.
    assert (Hc : first_candidate header = None).
    { unfold first_candidate.
      destruct (List.find (candidate_present header) candidates)
        as [c|] eqn:Hc; [|reflexivity].
      apply find_some in Hc as [Hcand Hpres].
      unfold candidate_present in Hpres.
      apply existsb_exists in Hpres as (h & Hh & Hlow).
      apply String.eqb_eq in Hlow.
      destruct (Hall h Hh) as (Hpv & Hrest).
      assert (Hne : c <> "p-value") by congruence.
      pose proof (candidate_looks_like_pvalue c Hcand Hne) as Hl.
      rewrite <- Hlow in Hl.
      apply Hlooks in Hrest. unfold looks_like_pvalue in Hrest. congruence. }
    rewrite (detect_pcol_fallback header Hc).
    destruct (List.find looks_like_pvalue header) as [h|] eqn:Hf;
      [|reflexivity].
    apply find_some in Hf as [Hh Hl].
    destruct (Hall h Hh) as (_ & Hrest). apply Hlooks in Hrest. congruence.
Qed.



(** ** What a run leaves behind *)

(** X11.  Each message with which the script itself ends a run names
    its cause.  When [main] exits with one of its six messages: the
    input had no non-blank line; or the header lacks the variant column;
    or the header has it and no p-value column is resolved in the
    header; or, with both columns resolved, a data row of the input has
    enough fields and, in a mode that does not skip it, its variant has
    no position field, or a position field that is no integer, or its
    position is read and its p-value is no number.  The message carries
    the variant, the field and the column of that row. *)
Theorem exit_messages_name_their_cause libm_log10 repr_finite a fs err :
  main libm_log10 repr_finite a fs = Raise (SystemExit err) ->
  match err with
  | EmptyInput path =>
      path = pyseer a
      /\ exists text, fs !! pyseer a = Some text /\ read_lines text = []
  | VariantColumnNotFound col header =>
      col = variant_col a /\ ~ In col header
      /\ exists first data,
           input_table a fs first data /\ header = Py.split_tab first
  | NoPValueColumn header =>
      In (variant_col a) header
      /\ (forall name, resolved_pcol a header = Some name -> ~ In name header)
      /\ exists first data,
           input_table a fs first data /\ header = Py.split_tab first
  | MissingBPField variant idx delim =>
      allow_missing_bp a = false
      /\ idx = bp_field_index a /\ delim = variant_delim a
      /\ delim <> ""
      /\ position_field a variant = None
      /\ exists first data var_i p_i pcol_name ln,
           input_table a fs first data
           /\ columns_resolved a (Py.split_tab first) var_i p_i pcol_name
           /\ In ln data /\ long_enough var_i p_i ln
           /\ variant = variant_of var_i ln
  | BPNotInteger bp variant =>
      allow_missing_bp a = false
      /\ position_field a variant = Some bp /\ Py.int bp = None
      /\ exists first data var_i p_i pcol_name ln,
           input_table a fs first data
           /\ columns_resolved a (Py.split_tab first) var_i p_i pcol_name
           /\ In ln data /\ long_enough var_i p_i ln
           /\ variant = variant_of var_i ln
  | PNotNumeric p_str col variant =>
      skip_nonpositive_p a = false
      /\ Py.float p_str = None
      /\ is_Some (parse_position a variant)
      /\ exists first data var_i p_i ln,
           input_table a fs first data
           /\ columns_resolved a (Py.split_tab first) var_i p_i col
           /\ In ln data /\ long_enough var_i p_i ln
           /\ variant = variant_of var_i ln /\ p_str = p_str_of p_i ln
  end.
Proof.
  unfold main. intros Hrun.
  destruct (fs !! pyseer a) as [text|] eqn:Hfile; [|discriminate].
  destruct (read_lines text) as [|first data] eqn:Hlines;
    [injection Hrun as <-; eauto|].
  assert (Ht : input_table a fs first data) by (exists text; auto).
  simpl in Hrun.
  destruct (col_index (Py.split_tab first) !! variant_col a)
    as [var_i|] eqn:Hvar.
  2:{ injection Hrun as <-. apply col_index_None in Hvar. eauto 6. }
  pose proof (col_index_Some_In _ _ _ Hvar) as Hin.
  destruct (match pcol a with
            | Some name => Some name
            | None => detect_pcol (Py.split_tab first)
            end) as [pcol_name|] eqn:Hp.
  2:{ injection Hrun as <-. split; [exact Hin|].
      split; [|eauto]. unfold resolved_pcol.
      intros name Hname. destruct (pcol a); congruence. }
  destruct (col_index (Py.split_tab first) !! pcol_name) as [p_i|] eqn:Hpi.
  2:{ injection Hrun as <-. split; [exact Hin|].
      split; [|eauto]. unfold resolved_pcol.
      intros name Hname. apply col_index_None in Hpi.
      destruct (pcol a); congruence. }
  assert (Hc : columns_resolved a (Py.split_tab first) var_i p_i pcol_name).
  { split; [exact Hvar|]. split; [|exact Hpi].
    unfold resolved_pcol. destruct (pcol a); exact Hp. }
  destruct (for_loop libm_log10 repr_finite a var_i p_i pcol_name data
              initial_state) as [st|e'] eqn:Hloop; [discriminate|].
  injection Hrun as ->.
  apply for_loop_raise_inv in Hloop as (pre & ln & post & Hdata & _ & Hln).
  assert (Hmem : In ln data)
    by (rewrite Hdata; apply in_or_app; right; now left).
  apply row_failure_kinds in Hln
    as (Hlong & [[_ Hd]|[(Hne & Hallow & Hpos & Hd)
                |[(Hallow & bp & Hbp & Hint & Hd)
                |(Hskip & Hz & Hfloat & Hd)]]]);
    [discriminate Hd|injection Hd as ->..].
  - repeat (split; [solve [auto]|]).
    exists first, data, var_i, p_i, pcol_name, ln. auto.
  - repeat (split; [solve [auto]|]).
    exists first, data, var_i, p_i, pcol_name, ln. auto.
  - repeat (split; [solve [auto]|]).
    exists first, data, var_i, p_i, ln. repeat split; auto; apply Hc.
Qed.

Lemma exit_messages_name_their_cause_witness :
  main sample_log10 sample_repr sample_args (files_with no_position_table)
  = Raise (SystemExit (MissingBPField "abc" 1 "_"))
  /\ allow_missing_bp sample_args = false
  /\ 1%Z = bp_field_index sample_args /\ "_" = variant_delim sample_args
  /\ "_" <> ""
  /\ position_field sample_args "abc" = None
  /\ exists first data var_i p_i pcol_name ln,
       input_table sample_args (files_with no_position_table) first data
       /\ columns_resolved sample_args (Py.split_tab first) var_i p_i
            pcol_name
       /\ In ln data /\ long_enough var_i p_i ln
       /\ "abc" = variant_of var_i ln.
Proof.
  assert (Hrun : main sample_log10 sample_repr sample_args
                   (files_with no_position_table)
                 = Raise (SystemExit (MissingBPField "abc" 1 "_")))
    by (vm_compute; reflexivity).
  split; [exact Hrun|].
  exact (exit_messages_name_their_cause sample_log10 sample_repr sample_args
           (files_with no_position_table) _ Hrun).
Defined.

(** X13.  A table that has a header and no data row is not an error:
    once both columns are resolved the run writes the header line alone
    and reports zero variants, without a warning. *)
Theorem header_only_table_is_written libm_log10 repr_finite a fs first
    var_i p_i pcol_name :
  input_table a fs first [] ->
  columns_resolved a (Py.split_tab first) var_i p_i pcol_name ->
  main libm_log10 repr_finite a fs
  = Ok (<[out a := DEFAULT_HEADER ++ Py.newline]> fs,
        [INFO 0 (out a) pcol_name (variant_col a)])
  /\ status (run_script libm_log10 repr_finite a fs) = 0%Z.
Proof.
  intros Ht Hc.
  assert (Hrun : main libm_log10 repr_finite a fs
                 = Ok (<[out a := DEFAULT_HEADER ++ Py.newline]> fs,
                       [INFO 0 (out a) pcol_name (variant_col a)]))
    by (rewrite (main_resolved _ _ _ _ _ _ _ _ _ Ht Hc); reflexivity).
  split; [exact Hrun|]. now rewrite (run_script_ok _ _ _ _ _ _ Hrun).
Qed.

Lemma header_only_table_is_written_witness :
  input_table sample_args (files_with header_only_table)
    (tsv ["variant"; "pvalue"]) []
  /\ main sample_log10 sample_repr sample_args (files_with header_only_table)
     = Ok (<[out sample_args := DEFAULT_HEADER ++ Py.newline]>
             (files_with header_only_table),
           [INFO 0 (out sample_args) "pvalue" (variant_col sample_args)]).
Proof.
  assert (Ht : input_table sample_args (files_with header_only_table)
                 (tsv ["variant"; "pvalue"]) []).
  { exists header_only_table. split; vm_compute; reflexivity. }
  assert (Hc : columns_resolved sample_args
                 (Py.split_tab (tsv ["variant"; "pvalue"])) 0 1 "pvalue").
  { repeat split; vm_compute; reflexivity. }
  split; [exact Ht|].
  exact (proj1 (header_only_table_is_written sample_log10 sample_repr
                  sample_args (files_with header_only_table) _ 0 1 "pvalue"
                  Ht Hc)).
Defined.

(** ** Reading the table *)

Lemma is_newline_eq c : Py.is_newline c = true -> c = ascii_of_N 10.
Proof.
  unfold Py.is_newline, Py.ord. intros H. apply N.eqb_eq in H.
  rewrite <- (ascii_N_embedding c), H. reflexivity.
Qed.

(** A line of a text holds no newline but, at most, its last
    character. *)
Lemma file_lines_shape text : forall l,
  In l (Py.file_lines text) ->
  exists body,
    no_newline body = true /\ (l = body ++ Py.newline \/ l = body).
Proof.
  induction text as [|c rest IH]; intros l Hl; [contradiction|].
  simpl in Hl. destruct (Py.is_newline c) eqn:Hc.
  - destruct Hl as [<-|Hl]; [|now apply IH].
    exists "". split; [reflexivity|]. left.
    now rewrite (is_newline_eq c Hc).
  - destruct (Py.file_lines rest) as [|l0 ls] eqn:Hrest.
    + destruct Hl as [<-|[]]. exists (String c ""). split; [|now right].
      unfold no_newline. simpl. now rewrite Hc.
    + destruct Hl as [<-|Hl].
      * destruct (IH l0 (or_introl eq_refl)) as (body & Hbody & Hshape).
        exists (String c body). split.
        -- unfold no_newline in *. simpl. now rewrite Hc, Hbody.
        -- destruct Hshape as [->| ->]; [left|right]; reflexivity.
      * apply IH. now right.
Qed.

Lemma rstrip_newline_line body :
  no_newline body = true -> Py.rstrip_newline (body ++ Py.newline) = body.
Proof.
  unfold no_newline, Py.rstrip_newline.
  induction body as [|c body IH]; intros Hb; [reflexivity|].
  simpl in Hb. apply andb_true_iff in Hb as [Hc Hb].
  apply negb_true_iff in Hc.
  rewrite append_cons. simpl. rewrite (IH Hb), Hc. now destruct body.
Qed.

Lemma rstrip_newline_plain body :
  no_newline body = true -> Py.rstrip_newline body = body.
Proof. apply rstrip_by_none. Qed.

(** A text is blank for [str.strip] when all its characters are white
    space. *)
Lemma truthy_strip s :
  Py.truthy (Py.strip s) = negb (Py.all_chars Py.isspace s).
Proof.
  unfold Py.strip, Py.strip_by.
  induction s as [|c s IH]; [reflexivity|]. simpl.
  destruct (Py.isspace c) eqn:Hc; [exact IH|]. simpl.
  rewrite Hc. now destruct (Py.rstrip_by Py.isspace s).
Qed.

Lemma all_chars_file_lines p text :
  forallb (Py.all_chars p) (Py.file_lines text) = Py.all_chars p text.
Proof.
  induction text as [|c rest IH]; [reflexivity|]. simpl.
  destruct (Py.is_newline c).
  - simpl. now rewrite IH, andb_true_r.
  - destruct (Py.file_lines rest) as [|l ls]; simpl in *.
    + now rewrite <- IH, andb_true_r.
    + now rewrite <- IH, andb_assoc.
Qed.

(** X14.  The lines that [main] works on, header and data rows alike,
    hold no newline and are never blank: each has a character that is
    not white space. *)
Theorem read_lines_are_proper_lines text l :
  In l (read_lines text) ->
  no_newline l = true /\ Py.all_chars Py.isspace l = false.
Proof.
  unfold read_lines. intros Hl.
  apply in_map_iff in Hl as (l0 & <- & Hl0).
  apply filter_In in Hl0 as [Hin Hkeep].
  rewrite truthy_strip in Hkeep. apply negb_true_iff in Hkeep.
  destruct (file_lines_shape text l0 Hin) as (body & Hbody & [->| ->]).
  - rewrite (rstrip_newline_line body Hbody). split; [exact Hbody|].
    rewrite all_chars_append in Hkeep.
    apply andb_false_iff in Hkeep as [H|H]; [exact H|discriminate].
  - rewrite (rstrip_newline_plain body Hbody). auto.
Qed.

Lemma read_lines_are_proper_lines_witness :
  In (tsv ["c_77_A"; "0"; "y"]) (read_lines sample_table)
  /\ no_newline (tsv ["c_77_A"; "0"; "y"]) = true
  /\ Py.all_chars Py.isspace (tsv ["c_77_A"; "0"; "y"]) = false.
Proof.
  assert (H : In (tsv ["c_77_A"; "0"; "y"]) (read_lines sample_table))
    by (vm_compute; tauto).
  split; [exact H|].
  exact (read_lines_are_proper_lines sample_table _ H).
Defined.

Lemma empty_input_error_inv libm_log10 repr_finite a fs text :
  fs !! pyseer a = Some text ->
  main libm_log10 repr_finite a fs
  = Raise (SystemExit (EmptyInput (pyseer a))) ->
  read_lines text = [].
Proof.
  intros Hfile. unfold main. rewrite Hfile.
  destruct (read_lines text) as [|first data]; [reflexivity|].
  simpl.
  destruct (col_index (Py.split_tab first) !! variant_col a) as [var_i|];
    [|discriminate].
  destruct (match pcol a with
            | Some name => Some name
            | None => detect_pcol (Py.split_tab first)
            end) as [pcol_name|]; [|discriminate].
  destruct (col_index (Py.split_tab first) !! pcol_name) as [p_i|];
    [|discriminate].
  destruct (for_loop libm_log10 repr_finite a var_i p_i pcol_name data
              initial_state) as [st|e] eqn:Hloop; [discriminate|].
  intros [= ->].
  apply for_loop_raise_inv in Hloop as (pre & ln & post & _ & _ & Hln).
  apply row_failure_kinds in Hln
    as (_ & [[_ H]|[(_ & _ & _ & H)|[(_ & bp & _ & _ & H)|(_ & _ & _ & H)]]]);
    discriminate.
Qed.

(** X15.  The input counts as empty exactly when the file holds
    nothing but white space: this is when the run ends with the
    empty-input error. *)
Theorem empty_input_iff_blank libm_log10 repr_finite a fs text :
  fs !! pyseer a = Some text ->
  (read_lines text = [] <-> Py.all_chars Py.isspace text = true)
  /\ (main libm_log10 repr_finite a fs
      = Raise (SystemExit (EmptyInput (pyseer a)))
      <-> Py.all_chars Py.isspace text = true).
Proof.
  intros Hfile.
  assert (Hlines : read_lines text = [] <->
                   Py.all_chars Py.isspace text = true).
  { rewrite <- all_chars_file_lines. unfold read_lines.
    induction (Py.file_lines text) as [|l ls IH]; [simpl; tauto|].
    simpl. rewrite truthy_strip.
    destruct (Py.all_chars Py.isspace l); simpl; [exact IH|].
    split; discriminate. }
  split; [exact Hlines|].
  rewrite <- Hlines. split.
  - intros Hrun.
    apply (empty_input_error_inv libm_log10 repr_finite a fs text
             Hfile Hrun).
  - intros Hempty. unfold main. now rewrite Hfile, Hempty.
Qed.

Lemma empty_input_iff_blank_witness :
  files_with blank_table !! pyseer sample_args = Some blank_table
  /\ Py.all_chars Py.isspace blank_table = true
  /\ main sample_log10 sample_repr sample_args (files_with blank_table)
     = Raise (SystemExit (EmptyInput (pyseer sample_args))).
Proof.
  assert (H : files_with blank_table !! pyseer sample_args = Some blank_table)
    by (vm_compute; reflexivity).
  split; [exact H|]. split; [reflexivity|].
  apply (proj2 (empty_input_iff_blank sample_log10 sample_repr sample_args
                  (files_with blank_table) blank_table H)).
  reflexivity.
Defined.

Lemma read_terminated_lines (ls : list string) :
  Forall (fun l => no_newline l = true) ls ->
  Py.rstrip_newline <$>
    List.filter (fun ln => Py.truthy (Py.strip ln))
      (map (fun l => l ++ Py.newline) ls)
  = List.filter (fun l => negb (Py.all_chars Py.isspace l)) ls.
Proof.
  induction 1 as [|l ls Hl _ IH]; [reflexivity|].
  simpl. rewrite truthy_strip, all_chars_append.
  change (Py.all_chars Py.isspace Py.newline) with true.
  rewrite andb_true_r.
  destruct (Py.all_chars Py.isspace l); simpl; [exact IH|].
  rewrite (rstrip_newline_line l Hl). f_equal. exact IH.
Qed.

(** X16.  Reading a text of newline-terminated lines gives back its
    lines that are not blank, unchanged and in order: blank lines are
    dropped wherever they stand, and nothing else is. *)
Theorem read_lines_of_text (ls : list string) :
  Forall (fun l => no_newline l = true) ls ->
  read_lines (text_of ls)
  = List.filter (fun l => negb (Py.all_chars Py.isspace l)) ls.
Proof.
  intros Hls. unfold read_lines.
  rewrite (file_lines_text_of ls Hls).
  now apply read_terminated_lines.
Qed.

Lemma read_lines_of_text_witness :
  Forall (fun l => no_newline l = true) ["a"; ""; "  "; "b c"]
  /\ read_lines (text_of ["a"; ""; "  "; "b c"]) = ["a"; "b c"].
Proof.
  assert (H : Forall (fun l => no_newline l = true) ["a"; ""; "  "; "b c"])
    by (repeat constructor).
  split; [exact H|].
  exact (read_lines_of_text ["a"; ""; "  "; "b c"] H).
Defined.

Lemma str_int_not_blank z : Py.all_chars Py.isspace (Py.str_int z) = false.
Proof.
  unfold Py.str_int.
  destruct z as [|p|p]; unfold Z.to_int, NilZero.string_of_int;
    try reflexivity;
    rewrite string_of_uint_nonnil by apply Unsigned.to_uint_nonnil.
  pose proof (Unsigned.to_uint_nonnil p) as Hn.
  destruct (Pos.to_uint p); [congruence|reflexivity..].
Qed.

Lemma output_row_not_blank repr_finite a z v :
  Py.all_chars Py.isspace (output_row repr_finite a z v) = false.
Proof.
  unfold output_row, Py.join.
  change (String.concat Py.tab
            [chr_index a; snp_name a; Py.str_int z;
             Py.str_float repr_finite v; Py.str_float repr_finite v; r2 a])
    with (chr_index a ++ Py.tab ++ snp_name a ++ Py.tab ++ Py.str_int z
          ++ Py.tab
          ++ String.concat Py.tab
               [Py.str_float repr_finite v; Py.str_float repr_finite v;
                r2 a]).
  rewrite !all_chars_append, str_int_not_blank.
  now rewrite !andb_false_r.
Qed.

Lemma string_of_uint_no_cr u : no_cr (NilEmpty.string_of_uint u) = true.
Proof. induction u; simpl; auto. Qed.

Lemma str_int_no_cr z : no_cr (Py.str_int z) = true.
Proof.
  unfold Py.str_int.
  destruct z as [|p|p]; unfold Z.to_int, NilZero.string_of_int;
    try reflexivity;
    rewrite string_of_uint_nonnil by apply Unsigned.to_uint_nonnil.
  - apply string_of_uint_no_cr.
  - pose proof (string_of_uint_no_cr (Pos.to_uint p)) as H.
    unfold no_cr in *. simpl. now rewrite H.
Qed.

Lemma str_float_no_cr repr_finite v :
  (forall x, no_cr (repr_finite x) = true) ->
  no_cr (Py.str_float repr_finite v) = true.
Proof. intros H. destruct v as [s|[]| |s m e]; simpl; auto. Qed.

Lemma output_row_no_cr repr_finite a z v :
  no_cr (chr_index a) = true -> no_cr (snp_name a) = true ->
  no_cr (r2 a) = true -> (forall x, no_cr (repr_finite x) = true) ->
  no_cr (output_row repr_finite a z v) = true.
Proof.
  intros Hchr Hsnp Hr2 Hrepr.
  pose proof (str_int_no_cr z) as Hz.
  pose proof (str_float_no_cr repr_finite v Hrepr) as Hv.
  unfold output_row, no_cr in *.
  apply all_chars_join; [reflexivity|]. repeat constructor; assumption.
Qed.

Lemma text_of_no_cr (ls : list string) :
  Forall (fun l => no_cr l = true) ls -> no_cr (text_of ls) = true.
Proof.
  induction 1 as [|l ls Hl _ IH]; [reflexivity|].
  rewrite text_of_cons. unfold no_cr in *.
  now rewrite !all_chars_append, Hl, IH.
Qed.

(** X17.  The file written by a run is itself a table that the script's
    own reader reads back line for line: when the labels and the text
    of floats hold no tab, no newline and no carriage return, the
    written text holds no carriage return, so that reading it in text
    mode yields it unchanged, and the lines read from it are the header
    followed by the written rows, none dropped as blank. *)
Theorem output_reads_back libm_log10 repr_finite a fs fs' err :
  main libm_log10 repr_finite a fs = Ok (fs', err) ->
  plain (chr_index a) = true -> plain (snp_name a) = true ->
  plain (r2 a) = true -> (forall x, plain (repr_finite x) = true) ->
  no_cr (chr_index a) = true -> no_cr (snp_name a) = true ->
  no_cr (r2 a) = true -> (forall x, no_cr (repr_finite x) = true) ->
  exists content rows,
    fs' !! out a = Some content
    /\ content = render (DEFAULT_HEADER :: rows)
    /\ no_cr content = true
    /\ Forall (fun r => no_newline r = true /\ no_cr r = true) rows
    /\ read_lines content = DEFAULT_HEADER :: rows.
Proof.
  intros Hrun Hchr Hsnp Hr2 Hrepr Cchr Csnp Cr2 Crepr.
  apply main_ok_rows in Hrun
    as (first & data & var_i & p_i & pcol_name & Ht & Hc & Hall & -> & ->).
  exists (render (DEFAULT_HEADER ::
            written_rows libm_log10 repr_finite a var_i p_i pcol_name data)),
    (written_rows libm_log10 repr_finite a var_i p_i pcol_name data).
  split; [apply lookup_insert_eq|]. split; [reflexivity|].
  assert (Hplain : Forall (fun l => no_newline l = true)
            (DEFAULT_HEADER ::
               written_rows libm_log10 repr_finite a var_i p_i pcol_name data)).
  { constructor; [reflexivity|]. now apply written_rows_no_newline. }
  destruct (written_rows_records libm_log10 repr_finite a var_i p_i pcol_name
              data) as [recs Hrecs].
  assert (Hcr : Forall (fun l => no_cr l = true)
            (written_rows libm_log10 repr_finite a var_i p_i pcol_name data)).
  { rewrite Hrecs. apply Forall_map, List.Forall_forall. intros [z v] _.
    now apply output_row_no_cr. }
  split.
  { rewrite render_text_of. apply text_of_no_cr.
    constructor; [reflexivity|exact Hcr]. }
  split.
  { apply List.Forall_forall. intros r Hr. split.
    - inversion Hplain as [|? ? _ Hrows].
      exact (proj1 (List.Forall_forall _ _) Hrows r Hr).
    - exact (proj1 (List.Forall_forall _ _) Hcr r Hr). }
  rewrite render_text_of. unfold read_lines.
  rewrite (file_lines_text_of _ Hplain), (read_terminated_lines _ Hplain).
  change (List.filter (fun l => negb (Py.all_chars Py.isspace l))
            (DEFAULT_HEADER ::
               written_rows libm_log10 repr_finite a var_i p_i pcol_name data))
    with (DEFAULT_HEADER ::
          List.filter (fun l => negb (Py.all_chars Py.isspace l))
            (written_rows libm_log10 repr_finite a var_i p_i pcol_name data)).
  f_equal. rewrite Hrecs. clear.
  induction recs as [|[z v] recs IH]; [reflexivity|].
  simpl. now rewrite output_row_not_blank, IH.
Qed.

Lemma output_reads_back_witness :
  main sample_log10 sample_repr sample_args sample_files
  = Ok (sample_files_after, sample_stderr)
  /\ exists content rows,
       sample_files_after !! out sample_args = Some content
       /\ content = render (DEFAULT_HEADER :: rows)
       /\ no_cr content = true
       /\ Forall (fun r => no_newline r = true /\ no_cr r = true) rows
       /\ read_lines content = DEFAULT_HEADER :: rows.
Proof.
  assert (Hrun : main sample_log10 sample_repr sample_args sample_files
                 = Ok (sample_files_after, sample_stderr))
    by (vm_compute; reflexivity).
  split; [exact Hrun|].
  refine (output_reads_back sample_log10 sample_repr sample_args sample_files
            _ _ Hrun eq_refl eq_refl eq_refl _ eq_refl eq_refl eq_refl _);
    intros x; unfold sample_repr; now destruct (SFeqb _ _).
Defined.

(** ** The fields of a variant *)

Lemma prefix_drop p : forall s,
  String.prefix p s = true -> s = p ++ string_drop (String.length p) s.
Proof.
  induction p as [|c p IH]; intros s Hp; [reflexivity|].
  destruct s as [|d s]; [discriminate|].
  cbn [String.prefix] in Hp.
  destruct (ascii_dec c d) as [<-|]; [|discriminate].
  rewrite append_cons. cbn [String.length string_drop].
  f_equal. now apply IH.
Qed.

Lemma split_from_nonempty sep s : forall k cur,
  Py.split_from sep k cur s <> [].
Proof.
  induction s as [|c s IH]; intros k cur; [discriminate|].
  cbn [Py.split_from]. destruct k as [|k]; [|apply IH].
  destruct (String.prefix sep (String c s)); [discriminate|apply IH].
Qed.

Lemma join_cons sep x l :
  l <> [] -> Py.join sep (x :: l) = x ++ sep ++ Py.join sep l.
Proof. destruct l; [congruence|reflexivity]. Qed.

Lemma string_of_list_ascii_snoc l c s :
  string_of_list_ascii (l ++ [c])%list ++ s
  = string_of_list_ascii l ++ String c s.
Proof.
  induction l as [|d l IH]; [reflexivity|].
  simpl string_of_list_ascii. rewrite !append_cons. now f_equal.
Qed.

Lemma string_drop_nil k : string_drop k "" = "".
Proof. now destruct k. Qed.

(** Joining the pieces of a split gives back what was split, less the
    characters of a separator still to be dropped. *)
Lemma join_split_from sep s : forall k cur,
  sep <> "" ->
  Py.join sep (Py.split_from sep k cur s)
  = string_of_list_ascii (rev cur) ++ string_drop k s.
Proof.
  induction s as [|c s IH]; intros k cur Hsep.
  - cbn [Py.split_from]. rewrite string_drop_nil, append_nil_r. reflexivity.
  - cbn [Py.split_from]. destruct k as [|k].
    + destruct (String.prefix sep (String c s)) eqn:Hp.
      * rewrite join_cons by apply split_from_nonempty.
        rewrite (IH _ [] Hsep). cbn [rev string_of_list_ascii string_drop].
        apply prefix_drop in Hp.
        destruct sep as [|d sep]; [congruence|].
        cbn [String.length string_drop] in Hp.
        cbn [String.length]. rewrite Nat.sub_succ, Nat.sub_0_r.
        change ("" ++ string_drop (String.length sep) s)
          with (string_drop (String.length sep) s).
        now rewrite <- Hp.
      * rewrite (IH 0 (c :: cur) Hsep). cbn [rev string_drop].
        apply string_of_list_ascii_snoc.
    + rewrite (IH k cur Hsep). reflexivity.
Qed.

(** X18.  The fields that the variant identifier is split into are
    never none, and joined by the delimiter they give back the
    identifier: every field is a piece of it.  The first and the last
    field always exist, so that field index 0 or -1 never gives the
    missing-position-field error. *)
Theorem split_then_join s sep fields :
  Py.split s sep = Some fields ->
  Py.join sep fields = s
  /\ fields <> []
  /\ is_Some (Py.index fields 0)
  /\ is_Some (Py.index fields (-1)).
Proof.
  unfold Py.split. intros Hsplit.
  destruct sep as [|c sep]; [discriminate|].
  injection Hsplit as <-.
  pose proof (split_from_nonempty (String c sep) s 0 []) as Hne.
  split; [now rewrite join_split_from|]. split; [exact Hne|].
  destruct (Py.split_from (String c sep) 0 [] s) as [|f fs] eqn:Hf;
    [congruence|].
  split; [now exists f|].
  unfold Py.index.
  replace (0 <=? -1)%Z with false by reflexivity.
  replace (0 <=? Z.of_nat (length (f :: fs)) + -1)%Z with true
    by (symmetry; apply Z.leb_le; simpl length; lia).
  apply lookup_lt_is_Some. simpl length. lia.
Qed.

Lemma split_then_join_witness :
  Py.split "AE017143.1_12345_A_T" "_" = Some ["AE017143.1"; "12345"; "A"; "T"]
  /\ Py.join "_" ["AE017143.1"; "12345"; "A"; "T"] = "AE017143.1_12345_A_T"
  /\ ["AE017143.1"; "12345"; "A"; "T"] <> []
  /\ is_Some (Py.index ["AE017143.1"; "12345"; "A"; "T"] 0)
  /\ is_Some (Py.index ["AE017143.1"; "12345"; "A"; "T"] (-1)).
Proof.
  split; [reflexivity|].
  exact (split_then_join "AE017143.1_12345_A_T" "_"
           ["AE017143.1"; "12345"; "A"; "T"] eq_refl).
Defined.
